(** * Floating-menu controller of the tiptap demo: model and verification

    Shallow embedding of
    [demos/src/Extensions/FloatingMenu/React/index.jsx]: the caret-context
    predicates ([isEmptyParagraph], the default [shouldShow]), the plugin
    state reducer, the plugin-level gate, the [FloatingMenuView] controller
    with its event handlers, and the extension's command and shortcuts.

    External collaborators (ProseMirror, the DOM, tippy.js) appear only
    through the values the code reads from them and through a log of the
    calls the code makes to them. *)

From Stdlib Require Import ZArith.
From stdpp Require Import base decidable countable strings gmap.

Local Open Scope string_scope.

(** ** JavaScript values and truthiness *)

(** A number, as far as truthiness can tell numbers apart: NaN, an
    infinity, or the finite value [num / den] (zero, whatever its sign,
    has [num = 0]). *)
Inductive JSNumber : Type :=
  | NumNaN
  | NumInfinity (negative : bool)
  | NumFinite (num : Z) (den : positive).

Inductive JSValue : Type :=
  | JSUndefined
  | JSNull
  | JSBool (b : bool)
  | JSNum (x : JSNumber)
  | JSBigInt (n : Z)
  | JSStr (s : string)
  | JSObj.

(** [!!x] for a number: false for zero and NaN. *)
Definition numberTruthy (x : JSNumber) : bool :=
  match x with
  | NumNaN => false
  | NumInfinity _ => true
  | NumFinite num _ => negb (num =? 0)%Z
  end.

(** [!!v] of JavaScript. *)
Definition truthy (v : JSValue) : bool :=
  match v with
  | JSUndefined | JSNull => false
  | JSBool b => b
  | JSNum x => numberTruthy x
  | JSBigInt n => negb (n =? 0)%Z
  | JSStr s => negb (String.eqb s "")
  | JSObj => true
  end.

(** Truthiness of a string, as in [!getText(...)] and [!node.textContent]. *)
Definition nonEmptyString (s : string) : bool := negb (String.eqb s "").

(** Truthiness of an optional boolean, as in [!type.spec.code]. *)
Definition truthyOpt (o : option bool) : bool :=
  match o with Some b => b | None => false end.

(** ** Document model (the parts of ProseMirror's [Node] the code reads) *)

Record NodeSpec : Type := mkNodeSpec {
  code : option bool;       (* [spec.code], optional *)
  toText : option string;   (* [spec.toText], set from tiptap's [renderText] *)
  leafText : option string  (* [spec.leafText] *)
}.

Record NodeType : Type := mkNodeType {
  name : string;
  isBlock : bool;
  inlineContent : bool;
  isLeaf : bool;
  spec : NodeSpec
}.

(** [type.isTextblock] is [isBlock && inlineContent]. *)
Definition isTextblock (t : NodeType) : bool := isBlock t && inlineContent t.

#[warnings="-register-all"]
Inductive Node : Type :=
  | TextNode (text : string)
  | ElemNode (type : NodeType) (content : list Node).

(** The type of text nodes. *)
Definition textType : NodeType :=
  {| name := "text"; isBlock := false; inlineContent := false; isLeaf := true;
     spec := {| code := None; toText := None; leafText := None |} |}.

(** [node.type] *)
Definition typeOf (n : Node) : NodeType :=
  match n with TextNode _ => textType | ElemNode t _ => t end.

Definition content_of (n : Node) : list Node :=
  match n with TextNode _ => [] | ElemNode _ c => c end.

(** [node.childCount] *)
Definition childCount (n : Node) : nat := length (content_of n).

(** [node.nodeSize]: text length for text, 1 for leaves, content size + 2
    otherwise. *)
Fixpoint nodeSize (n : Node) : nat :=
  match n with
  | TextNode s => String.length s
  | ElemNode t c =>
      if isLeaf t then 1
      else 2 + (fix sizes (l : list Node) : nat :=
                  match l with
                  | [] => 0
                  | x :: r => nodeSize x + sizes r
                  end) c
  end.

(** [fragment.size] *)
Fixpoint fragmentSize (l : list Node) : nat :=
  match l with
  | [] => 0
  | x :: r => nodeSize x + fragmentSize r
  end.

(** [node.content.size] *)
Definition contentSize (n : Node) : nat := fragmentSize (content_of n).

(** [node.textContent]: the text of the text nodes and the [leafText] of
    the leaves below the node, in document order, without separators. *)
Fixpoint textContent (n : Node) : string :=
  match n with
  | TextNode s => s
  | ElemNode t c =>
      if isLeaf t then
        match leafText (spec t) with Some s => s | None => "" end
      else
        (fix texts (l : list Node) : string :=
           match l with
           | [] => ""
           | x :: r => String.append (textContent x) (texts r)
           end) c
  end.

(** The schema is the list of its node types; [getTextSerializersFromSchema]
    keeps the [toText] of the node types that declare one, by type name. *)
Definition Schema : Type := list NodeType.

Fixpoint getTextSerializersFromSchema (sch : Schema) : gmap string string :=
  match sch with
  | [] => ∅
  | t :: r =>
      let rest := getTextSerializersFromSchema r in
      match toText (spec t) with
      | Some s => <[name t := s]> rest
      | None => rest
      end
  end.

(** [getText(node, { textSerializers })] of tiptap core walks the content of
    [node] from position 0 to [content.size]: a block that does not start at
    position 0 is preceded by the block separator, a node whose type has a
    serializer contributes the serialized text and is not entered, a text
    node contributes its text. The function below visits one node found at
    position [pos]. *)
Definition newline : Ascii.ascii := Ascii.ascii_of_nat 10.
Definition blockSeparator : string := String newline (String newline "").

Fixpoint getTextVisit (sers : gmap string string) (pos : nat) (n : Node)
  : string :=
  match n with
  | TextNode s => s
  | ElemNode t c =>
      String.append
        (if isBlock t && negb (Nat.eqb pos 0) then blockSeparator else "")
        (match sers !! name t with
         | Some s => s
         | None =>
             (fix visits (p : nat) (l : list Node) : string :=
                match l with
                | [] => ""
                | x :: r =>
                    String.append (getTextVisit sers p x)
                                  (visits (p + nodeSize x) r)
                end) (pos + 1) c
         end)
  end.

Fixpoint getTextNodes (sers : gmap string string) (pos : nat) (l : list Node)
  : string :=
  match l with
  | [] => ""
  | x :: r =>
      String.append (getTextVisit sers pos x)
                    (getTextNodes sers (pos + nodeSize x) r)
  end.

Definition getText (n : Node) (sers : gmap string string) : string :=
  getTextNodes sers 0 (content_of n).

(** ** Editor state as the code reads it *)

Record ResolvedPos : Type := mkResolvedPos {
  parent : Node;
  depth : nat;
  pos : nat
}.

Module Selection.

(** [r_anchor] and [r_to] are the resolved positions [$anchor] and [$to]. *)
Record t : Type := mk {
  r_anchor : ResolvedPos;
  r_to : ResolvedPos;
  empty : bool;
  from : nat;
  to : nat
}.

End Selection.

(** The value the plugin keeps under [floatingMenuKey]. *)
Record PluginState : Type := mkPluginState {
  showFloatingMenu : JSValue
}.

Record EditorState : Type := mkEditorState {
  doc : Node;
  selection : Selection.t;
  floatingMenuState : PluginState  (* [floatingMenuKey.getState(state)] *)
}.

Definition DomNode : Type := nat.

Record EditorView : Type := mkEditorView {
  state : EditorState;
  composing : bool;
  hasFocus : bool;
  dom : DomNode
}.

Record Editor : Type := mkEditor {
  isEditable : bool;
  schema : Schema;
  view : EditorView;
  (* [!!editor.options.element.parentElement] *)
  editorIsAttached : bool
}.

(** ** The caret-context predicates *)

(** [isEmptyParagraph(pos, editor)] *)
Definition isEmptyParagraph (p : ResolvedPos) (editor : Editor) : bool :=
  let nodeParent := parent p in
  if String.eqb (name (typeOf nodeParent)) "paragraph"
     && Nat.eqb (contentSize nodeParent) 0
     && negb (nonEmptyString
                (getText nodeParent
                   (getTextSerializersFromSchema (schema editor))))
  then true
  else false.

(** The properties handed to a [shouldShow] predicate. *)
Record ShowProps : Type := mkShowProps {
  p_editor : Editor;
  p_view : EditorView;
  p_state : EditorState;
  p_oldState : option EditorState
}.

(** [FloatingMenuView.getTextContent(node)] *)
Definition getTextContent (editor : Editor) (node : Node) : string :=
  getText node (getTextSerializersFromSchema (schema editor)).

(** The local [isEmptyTextBlock] of the default [shouldShow]. *)
Definition isEmptyTextBlock (editor : Editor) (a : ResolvedPos) : bool :=
  isTextblock (typeOf (parent a))
  && negb (truthyOpt (code (spec (typeOf (parent a)))))
  && negb (nonEmptyString (textContent (parent a)))
  && Nat.eqb (childCount (parent a)) 0
  && negb (nonEmptyString (getTextContent editor (parent a))).

(** The default [FloatingMenuView.shouldShow]; [this_editor] is the
    controller's [this.editor]. *)
Definition defaultShouldShow (this_editor : Editor) (props : ShowProps) : bool :=
  let sel := selection (p_state props) in
  let a := Selection.r_anchor sel in
  let isRootDepth := Nat.eqb (depth a) 1 in
  if negb (hasFocus (p_view props))
     || negb (Selection.empty sel)
     || negb isRootDepth
     || negb (isEmptyTextBlock this_editor a)
     || negb (isEditable this_editor)
  then false
  else true.

(** ** Transactions and the plugin state reducer *)

Record Transaction : Type := mkTransaction {
  meta : gmap string JSValue
}.

(** The key string of [new PluginKey('floatingMenuKey')]. *)
Definition floatingMenuKey : string := "floatingMenuKey$".

Definition getMeta (tr : Transaction) (key : string) : JSValue :=
  default JSUndefined (meta tr !! key).

Definition setMeta (tr : Transaction) (key : string) (v : JSValue)
  : Transaction :=
  {| meta := <[key := v]> (meta tr) |}.

Definition isUndefined (v : JSValue) : bool :=
  match v with JSUndefined => true | _ => false end.

#[global] Instance NodeSpec_eq_dec : EqDecision NodeSpec.
Proof. solve_decision. Defined.

#[global] Instance NodeType_eq_dec : EqDecision NodeType.
Proof. solve_decision. Defined.

(** [node.eq(other)]: same type and structurally equal content. *)
Fixpoint Node_eqb (a b : Node) : bool :=
  match a, b with
  | TextNode s, TextNode s' => String.eqb s s'
  | ElemNode t c, ElemNode t' c' =>
      bool_decide (t = t')
      && (fix all2 (l l' : list Node) : bool :=
            match l, l' with
            | [], [] => true
            | x :: r, x' :: r' => Node_eqb x x' && all2 r r'
            | _, _ => false
            end) c c'
  | _, _ => false
  end.

(** Induction on documents: the children of an element satisfy the
    property before the element does. *)
Section NodeInduction.

Variable P : Node -> Prop.
Hypothesis case_text : forall s, P (TextNode s).
Hypothesis case_elem : forall t c, Forall P c -> P (ElemNode t c).

Fixpoint Node_nested_ind (n : Node) : P n :=
  match n with
  | TextNode s => case_text s
  | ElemNode t c =>
      case_elem t c
        ((fix children (l : list Node) : Forall P l :=
            match l with
            | [] => List.Forall_nil P
            | x :: r =>
                List.Forall_cons P x r (Node_nested_ind x) (children r)
            end) c)
  end.

End NodeInduction.

(** [selection.eq(other)]: same anchor and same range ends. *)
Definition Selection_eqb (s s' : Selection.t) : bool :=
  Nat.eqb (pos (Selection.r_anchor s)) (pos (Selection.r_anchor s'))
  && Nat.eqb (Selection.from s) (Selection.from s')
  && Nat.eqb (Selection.to s) (Selection.to s').

(** [state.init] *)
Definition init : PluginState := {| showFloatingMenu := JSBool false |}.

(** [state.apply(tr, value, oldState, newState)] *)
Definition apply (tr : Transaction) (value : PluginState)
    (oldState newState : EditorState) : PluginState :=
  let m := getMeta tr floatingMenuKey in
  if negb (isUndefined m) then {| showFloatingMenu := m |}
  else
    let isSameDoc := Node_eqb (doc oldState) (doc newState) in
    let isSameSelection :=
      Selection_eqb (selection oldState) (selection newState) in
    if isSameDoc && isSameSelection
    then {| showFloatingMenu := JSBool false |}
    else {| showFloatingMenu := JSBool false |}.

(** ** The plugin-level gate *)

Record FloatingMenuPluginProps : Type := mkPluginProps {
  o_editor : Editor;
  o_getReferenceClientRect : option nat; (* [tippyOptions.getReferenceClientRect] *)
  o_shouldShow : option (ShowProps -> bool)
}.

(** The [shouldShow] closure that [FloatingMenuPlugin] hands to the view,
    as a function of the live [view] object it closes over. *)
Definition pluginShouldShow (options : FloatingMenuPluginProps)
    (view : EditorView) : bool :=
  let sel := selection (state view) in
  let a := Selection.r_anchor sel in
  let emptyParagraph := isEmptyParagraph a (o_editor options) in
  let stateValue := floatingMenuState (state view) in
  if negb (Selection.empty sel)
     || negb emptyParagraph
     || negb (truthy (showFloatingMenu stateValue))
  then false
  else
    match o_shouldShow options with
    | Some f =>
        f {| p_editor := o_editor options; p_view := view;
             p_state := state view; p_oldState := None |}
    | None => true
    end.

(** ** The controller: [FloatingMenuView] *)

(** The listeners the controller registers: on its element, on the editor's
    event emitter and on the rendered content of the overlay. *)
Inductive Listener : Type :=
  | ElementMousedown
  | ElementKeydown
  | EditorFocus
  | EditorBlur
  | TippyContentBlur.

#[global] Instance Listener_eq_dec : EqDecision Listener.
Proof. solve_decision. Defined.

#[global] Instance Listener_countable : Countable Listener.
Proof.
  refine (inj_countable'
            (fun l => match l with
                      | ElementMousedown => 0 | ElementKeydown => 1
                      | EditorFocus => 2 | EditorBlur => 3
                      | TippyContentBlur => 4 end)
            (fun n => match n with
                      | 0 => ElementMousedown | 1 => ElementKeydown
                      | 2 => EditorFocus | 3 => EditorBlur
                      | _ => TippyContentBlur end) _).
  intros []; reflexivity.
Defined.

(** What the overlay's [getReferenceClientRect] property holds. *)
Inductive RectSource : Type :=
  | RectNull
  | RectConfigured (id : nat)       (* the one from [tippyOptions] *)
  | RectCaret (from to : nat).      (* [() => posToDOMRect(view, from, to)] *)

(** The overlay instance, as far as the controller changes it. *)
Record Instance : Type := mkInstance {
  isDestroyed : bool;
  getReferenceClientRect : RectSource;
  popperFirstChild : bool   (* whether [popper.firstChild] exists *)
}.

(** Deferred work handed to [setTimeout] and [requestAnimationFrame]. *)
Inductive Task : Type :=
  | TaskUpdate          (* [() => this.update(this.editor.view)] *)
  | TaskHandoff         (* the timeout of [onShow] *)
  | TaskRestoreFocus.   (* the animation frame of [onShow] *)

(** Calls to the outside whose effect is the callee's business. *)
Inductive Call : Type :=
  | ConsoleLog (msg : string)
  | ElementRemove                  (* [this.element.remove()] *)
  | ElementShow                    (* [element.style.visibility = 'visible'] *)
  | TippyCreate
  | TippyShow
  | TippyHide
  | TippySetProps (r : RectSource)
  | TippyDestroy
  | EditorCommandsFocus
  | EditorCommandsBlur
  | TextareaFocus
  | SetTimeout (t : Task)
  | RequestAnimationFrame (t : Task).

#[global] Instance Task_eq_dec : EqDecision Task.
Proof. solve_decision. Defined.

#[global] Instance RectSource_eq_dec : EqDecision RectSource.
Proof. solve_decision. Defined.

#[global] Instance Call_eq_dec : EqDecision Call.
Proof. solve_decision. Defined.

(** The [shouldShow] member: the class default, or the one passed to the
    constructor. *)
Inductive ShouldShowImpl : Type :=
  | DefaultShouldShow
  | ConfiguredShouldShow (f : ShowProps -> bool).

Record FloatingMenuView : Type := mkView {
  preventHide : bool;
  forceHide : bool;
  tippy : option Instance;
  visible : bool;
  (* [tippyOptions.getReferenceClientRect], the one option the controller
     itself reads; the others go to the overlay library untouched *)
  tippyOptions : option nat;
  shouldShow : ShouldShowImpl;
  listeners : gset Listener
}.

(** What a handler reads from the outside when it runs. *)
Record Env : Type := mkEnv {
  editor : Editor;                        (* [this.editor] *)
  elementParent : option DomNode;         (* [this.element.parentNode] *)
  contains : DomNode -> DomNode -> bool;  (* [a.contains(b)] *)
  newPopperFirstChild : bool;             (* of an instance [tippy()] returns *)
  textarea : bool              (* [document.getElementById('textarea')] exists *)
}.

Record FocusEvent : Type := mkFocusEvent {
  relatedTarget : option DomNode
}.

(** *** A state monad with a call log *)

Definition M (A : Type) : Type :=
  FloatingMenuView -> A * FloatingMenuView * list Call.

#[global] Instance M_ret : MRet M := fun A a v => (a, v, []).

#[global] Instance M_bind : MBind M := fun A B f m v =>
  let '(a, v1, l1) := m v in
  let '(b, v2, l2) := f a v1 in
  (b, v2, (l1 ++ l2)%list).

Definition this : M FloatingMenuView := fun v => (v, v, []).
Definition modify (f : FloatingMenuView -> FloatingMenuView) : M unit :=
  fun v => (tt, f v, []).
Definition call (c : Call) : M unit := fun v => (tt, v, [c]).

Definition result {A} (r : A * FloatingMenuView * list Call)
  : FloatingMenuView := snd (fst r).
Definition calls {A} (r : A * FloatingMenuView * list Call) : list Call :=
  snd r.

Definition set_preventHide (b : bool) (v : FloatingMenuView) :=
  mkView b (forceHide v) (tippy v) (visible v) (tippyOptions v)
         (shouldShow v) (listeners v).
Definition set_visible (b : bool) (v : FloatingMenuView) :=
  mkView (preventHide v) (forceHide v) (tippy v) b (tippyOptions v)
         (shouldShow v) (listeners v).
Definition set_tippy (t : option Instance) (v : FloatingMenuView) :=
  mkView (preventHide v) (forceHide v) t (visible v) (tippyOptions v)
         (shouldShow v) (listeners v).
Definition set_listeners (l : gset Listener) (v : FloatingMenuView) :=
  mkView (preventHide v) (forceHide v) (tippy v) (visible v) (tippyOptions v)
         (shouldShow v) l.

Definition addListener (l : Listener) : M unit :=
  modify (fun v => set_listeners ({[l]} ∪ listeners v) v).
Definition removeListener (l : Listener) : M unit :=
  modify (fun v => set_listeners (listeners v ∖ {[l]}) v).

(** *** Construction *)

(** [new FloatingMenuView({ editor, element, view, tippyOptions, shouldShow })] *)
Definition new_FloatingMenuView (tippyOpts : option nat)
    (shouldShowOpt : option (ShowProps -> bool))
  : FloatingMenuView * list Call :=
  ({| preventHide := false;
      forceHide := false;
      tippy := None;
      visible := false;
      tippyOptions := tippyOpts;
      shouldShow := match shouldShowOpt with
                    | Some f => ConfiguredShouldShow f
                    | None => DefaultShouldShow
                    end;
      listeners := {[ElementMousedown; ElementKeydown; EditorFocus; EditorBlur]}
   |}, [ElementRemove; ElementShow]).

(** The [view] factory of [FloatingMenuPlugin]: the wrapper closes over the
    live view object, the one every update cycle receives. *)
Definition FloatingMenuPlugin_view (options : FloatingMenuPluginProps)
  : FloatingMenuView * list Call :=
  new_FloatingMenuView (o_getReferenceClientRect options)
    (Some (fun props => pluginShouldShow options (p_view props))).

(** [this.shouldShow?.(props)] *)
Definition callShouldShow (impl : ShouldShowImpl) (this_editor : Editor)
    (props : ShowProps) : bool :=
  match impl with
  | DefaultShouldShow => defaultShouldShow this_editor props
  | ConfiguredShouldShow f => f props
  end.

(** *** Methods and handlers *)

(** [show()] and [hide()]: [this.tippy?.show()], [this.tippy?.hide()] *)
Definition show : M unit :=
  v ← this;
  match tippy v with Some _ => call TippyShow | None => mret tt end.

Definition hide : M unit :=
  v ← this;
  match tippy v with Some _ => call TippyHide | None => mret tt end.

Definition mousedownHandler : M unit :=
  call (ConsoleLog "mousedownHandler ");;
  modify (set_preventHide true).

Definition keydownHandler (key : string) : M unit :=
  if String.eqb key "Escape" then
    modify (set_preventHide true);;
    hide;;
    call EditorCommandsFocus
  else mret tt.

Definition focusHandler : M unit := call (SetTimeout TaskUpdate).

Definition blurHandler (env : Env) (event : option FocusEvent) : M unit :=
  v ← this;
  if preventHide v then modify (set_preventHide false)
  else
    let rt := event ≫= relatedTarget in
    if match rt, elementParent env with
       | Some target, Some host => contains env host target
       | _, _ => false
       end
    then mret tt
    else if bool_decide (rt = Some (dom (view (editor env))))
    then mret tt
    else hide.

Definition tippyBlurHandler (env : Env) (event : FocusEvent) : M unit :=
  blurHandler env (Some event).

Definition createTooltip (env : Env) : M unit :=
  v ← this;
  if bool_decide (is_Some (tippy v)) || negb (editorIsAttached (editor env))
  then mret tt
  else
    call TippyCreate;;
    modify (set_tippy (Some {|
      isDestroyed := false;
      getReferenceClientRect :=
        match tippyOptions v with
        | Some c => RectConfigured c
        | None => RectNull
        end;
      popperFirstChild := newPopperFirstChild env |}));;
    if newPopperFirstChild env then addListener TippyContentBlur
    else mret tt.

(** [this.tippy?.setProps({ getReferenceClientRect })]; a destroyed
    instance ignores the new properties. *)
Definition setReferenceClientRect (r : RectSource) : M unit :=
  v ← this;
  match tippy v with
  | Some i =>
      call (TippySetProps r);;
      modify (set_tippy
                (Some (if isDestroyed i then i
                       else mkInstance false r (popperFirstChild i))))
  | None => mret tt
  end.

(** [update(view, oldState)] *)
Definition update (env : Env) (view : EditorView)
    (oldState : option EditorState) : M unit :=
  let st := state view in
  let sel := selection st in
  v ← this;
  if composing view || visible v then call (ConsoleLog "update ")
  else
    createTooltip env;;
    v ← this;
    let shouldShow_ :=
      callShouldShow (shouldShow v) (editor env)
        {| p_editor := editor env; p_view := view;
           p_state := st; p_oldState := oldState |} in
    if negb shouldShow_ then hide
    else
      setReferenceClientRect
        (match tippyOptions v with
         | Some c => RectConfigured c
         | None => RectCaret (Selection.from sel) (Selection.to sel)
         end);;
      show.

(** [destroy()] *)
Definition destroy : M unit :=
  v ← this;
  (match tippy v with
   | Some i => if popperFirstChild i then removeListener TippyContentBlur
               else mret tt
   | None => mret tt
   end);;
  (match tippy v with
   | Some i =>
       call TippyDestroy;;
       modify (set_tippy
                 (Some (mkInstance true (getReferenceClientRect i)
                                   (popperFirstChild i))))
   | None => mret tt
   end);;
  modify (set_preventHide false);;
  modify (set_visible false);;
  removeListener ElementMousedown;;
  removeListener ElementKeydown;;
  removeListener EditorFocus;;
  removeListener EditorBlur.

(** The overlay's [onShow] and [onHidden] callbacks. *)
Definition onShow : M unit :=
  modify (set_visible true);;
  call (SetTimeout TaskHandoff).

Definition onHidden : M unit := modify (set_visible false).

(** Running a deferred task. *)
Definition runTask (env : Env) (t : Task) : M unit :=
  match t with
  | TaskUpdate => update env (view (editor env)) None
  | TaskHandoff =>
      modify (set_preventHide true);;
      call EditorCommandsBlur;;
      call (RequestAnimationFrame TaskRestoreFocus)
  | TaskRestoreFocus =>
      modify (set_preventHide false);;
      if textarea env then call TextareaFocus else mret tt
  end.

(** *** The controller as a state machine *)

(** Everything that can happen to a controller after its construction. *)
Inductive Event : Type :=
  | EvMousedown
  | EvKeydown (key : string)
  | EvFocus
  | EvBlur (event : option FocusEvent)
  | EvTippyBlur (event : FocusEvent)
  | EvUpdate (view : EditorView) (oldState : option EditorState)
  | EvOnShow
  | EvOnHidden
  | EvTask (t : Task)
  | EvDestroy.

Definition handle (env : Env) (ev : Event) : M unit :=
  match ev with
  | EvMousedown => mousedownHandler
  | EvKeydown key => keydownHandler key
  | EvFocus => focusHandler
  | EvBlur event => blurHandler env event
  | EvTippyBlur event => tippyBlurHandler env event
  | EvUpdate view oldState => update env view oldState
  | EvOnShow => onShow
  | EvOnHidden => onHidden
  | EvTask t => runTask env t
  | EvDestroy => destroy
  end.

(** The states a controller reaches from [start], each event arriving with
    the outside as it is at that moment. *)
Inductive reachable (start : FloatingMenuView) : FloatingMenuView -> Prop :=
  | reachable_start : reachable start start
  | reachable_step (v : FloatingMenuView) (env : Env) (ev : Event) :
      reachable start v -> reachable start (result (handle env ev v)).

(** The blur listener on the overlay's content is registered only while an
    instance with rendered content exists. *)
Definition listeners_wf (v : FloatingMenuView) : Prop :=
  TippyContentBlur ∈ listeners v ->
  exists i, tippy v = Some i /\ popperFirstChild i = true.

(** ** The extension: command and keyboard shortcuts *)

(** What a command receives. [c_editor] is absent when there is no command
    context, [c_dispatch] tells whether a [dispatch] function was passed. *)
Record CommandProps : Type := mkCommandProps {
  c_state : EditorState;
  c_editor : option Editor;
  c_tr : Transaction;
  c_dispatch : bool
}.

(** What a command does besides returning its boolean. *)
Inductive CommandCall : Type :=
  | Dispatch (tr : Transaction)          (* [dispatch(tr)] *)
  | CommandsSetFloatMenu (visible : bool). (* [editor.commands.setFloatMenu(v)] *)

(** [setFloatMenu(visible)] *)
Definition setFloatMenu (visible_ : bool) (props : CommandProps)
  : bool * list CommandCall :=
  (true,
   if c_dispatch props
   then [Dispatch (setMeta (c_tr props) floatingMenuKey (JSBool visible_))]
   else []).

(** [state.selection.$to] of the command properties. *)
Definition selectionEnd (props : CommandProps) : ResolvedPos :=
  Selection.r_to (selection (c_state props)).

(** The callback of the [Space] shortcut. *)
Definition spaceCommand (props : CommandProps) : bool * list CommandCall :=
  match c_editor props with
  | Some ed =>
      if isEmptyParagraph (selectionEnd props) ed
      then (true, [CommandsSetFloatMenu true])
      else (false, [])
  | None => (false, [])
  end.

(** The callback of the [Escape] shortcut. *)
Definition escapeCommand (props : CommandProps) : bool * list CommandCall :=
  match c_editor props with
  | Some _ => (true, [CommandsSetFloatMenu false])
  | None => (false, [])
  end.

(** [this.editor.commands.command(fn)] runs [fn] on the command properties
    and hands back what it returns; the shortcut handlers return that. *)
Definition commands_command (fn : CommandProps -> bool * list CommandCall)
    (props : CommandProps) : bool * list CommandCall := fn props.

Definition shortcutSpace : CommandProps -> bool * list CommandCall :=
  commands_command spaceCommand.

Definition shortcutEscape : CommandProps -> bool * list CommandCall :=
  commands_command escapeCommand.

(** The editor state after a dispatched transaction that carries only
    metadata: document and selection stay, the plugin state is reduced. *)
Definition applyTransaction (st : EditorState) (tr : Transaction)
  : EditorState :=
  {| doc := doc st;
     selection := selection st;
     floatingMenuState := apply tr (floatingMenuState st) st st |}.

(** ** Well-formed documents *)


(** ** The predicates in the words of the specification *)

(** The caret-context predicate as section 4.3 words it: (a) plain
    textblock, (b) no code behaviour, (c) empty text content, (d) no child
    nodes, (e) empty schema-aware serialization. *)
Definition caretContextSpec (ed : Editor) (p : ResolvedPos) : Prop :=
  isTextblock (typeOf (parent p)) = true
  /\ truthyOpt (code (spec (typeOf (parent p)))) = false
  /\ textContent (parent p) = ""
  /\ childCount (parent p) = 0
  /\ getText (parent p) (getTextSerializersFromSchema (schema ed)) = "".



(** What [options.shouldShow?.(...) ?? true] evaluates to. *)
Definition configuredOrTrue (options : FloatingMenuPluginProps)
    (view : EditorView) : bool :=
  match o_shouldShow options with
  | Some f => f {| p_editor := o_editor options; p_view := view;
                   p_state := state view; p_oldState := None |}
  | None => true
  end.

(** The blur moves the focus into the overlay host (the node the menu
    element is mounted in) or onto the document view itself. *)
Definition focusStaysInside (env : Env) (event : option FocusEvent) : Prop :=
  exists target,
    event ≫= relatedTarget = Some target
    /\ ((exists host, elementParent env = Some host
                      /\ contains env host target = true)
        \/ target = dom (view (editor env))).


(** The conjuncts of section 4.4 for the default predicate. *)
Definition defaultConjuncts (ed : Editor) (props : ShowProps) : Prop :=
  hasFocus (p_view props) = true
  /\ Selection.empty (selection (p_state props)) = true
  /\ depth (Selection.r_anchor (selection (p_state props))) = 1
  /\ caretContextSpec ed (Selection.r_anchor (selection (p_state props)))
  /\ isEditable ed = true.

(** ** Sample data: the demo's schema and documents *)

Definition noSpec : NodeSpec :=
  {| code := None; toText := None; leafText := None |}.

Definition paragraphType : NodeType :=
  {| name := "paragraph"; isBlock := true; inlineContent := true;
     isLeaf := false; spec := noSpec |}.

Definition headingType : NodeType :=
  {| name := "heading"; isBlock := true; inlineContent := true;
     isLeaf := false; spec := noSpec |}.

Definition docType : NodeType :=
  {| name := "doc"; isBlock := true; inlineContent := false;
     isLeaf := false; spec := noSpec |}.

(** The demo's inline [foo] node, rendered as the text foo. *)
Definition fooType : NodeType :=
  {| name := "foo"; isBlock := false; inlineContent := false;
     isLeaf := true;
     spec := {| code := None; toText := Some "foo"; leafText := None |} |}.

Definition demoSchema : Schema :=
  [docType; paragraphType; headingType; fooType].

Definition emptyParagraph : Node := ElemNode paragraphType [].
Definition emptyHeading : Node := ElemNode headingType [].

Definition caretIn (n : Node) (at_ : nat) : ResolvedPos :=
  {| parent := n; depth := 1; pos := at_ |}.

Definition caretSelection (n : Node) (at_ : nat) : Selection.t :=
  Selection.mk (caretIn n at_) (caretIn n at_) true at_ at_.

Definition demoState (n : Node) (flag : JSValue) : EditorState :=
  {| doc := ElemNode docType [n];
     selection := caretSelection n 1;
     floatingMenuState := {| showFloatingMenu := flag |} |}.

Definition demoView (n : Node) (flag : JSValue) (composing_ : bool)
  : EditorView :=
  {| state := demoState n flag; composing := composing_;
     hasFocus := true; dom := 1 |}.

Definition demoEditor (v : EditorView) : Editor :=
  {| isEditable := true; schema := demoSchema; view := v;
     editorIsAttached := true |}.

Definition demoEnv (v : EditorView) : Env :=
  {| editor := demoEditor v;
     elementParent := Some 10;
     contains := fun host target => Nat.eqb host 10 && Nat.leb 10 target;
     newPopperFirstChild := true;
     textarea := true |}.

Definition demoOptions (v : EditorView) : FloatingMenuPluginProps :=
  {| o_editor := demoEditor v;
     o_getReferenceClientRect := None;
     o_shouldShow := None |}.

(** Carets and command properties used in the examples below. *)
Definition headingView : EditorView := demoView emptyHeading (JSBool true) false.
Definition paragraphView : EditorView :=
  demoView emptyParagraph (JSBool false) false.

Definition showPropsOf (v : EditorView) : ShowProps :=
  {| p_editor := demoEditor v; p_view := v; p_state := state v;
     p_oldState := None |}.

Definition emptyTransaction : Transaction := {| meta := ∅ |}.

Definition commandPropsOf (v : EditorView) : CommandProps :=
  {| c_state := state v; c_editor := Some (demoEditor v);
     c_tr := emptyTransaction; c_dispatch := true |}.

(** Transactions tagged with a string and with the number zero. *)
Definition stringTaggedTransaction : Transaction :=
  setMeta emptyTransaction floatingMenuKey (JSStr "open").

Definition zeroTaggedTransaction : Transaction :=
  setMeta emptyTransaction floatingMenuKey (JSNum (NumFinite 0 1)).

(** A controller built by the plugin, then shown: the flag is set while the
    caret is in an empty paragraph, the update cycle shows the overlay and
    the overlay reports it through [onShow]. *)
Definition openView : EditorView := demoView emptyParagraph (JSBool true) false.

Definition pluginController : FloatingMenuView :=
  fst (FloatingMenuPlugin_view (demoOptions openView)).

Definition shownController : FloatingMenuView :=
  result (onShow (result (update (demoEnv openView) openView None
                            pluginController))).

(** A blur towards a node outside the overlay host and the document view. *)
Definition unrelatedBlur : option FocusEvent :=
  Some {| relatedTarget := Some 3 |}.

(** The view after an untagged transaction: the reducer has reset the flag, the
    caret is still in the empty paragraph. *)
Definition collapsedView : EditorView :=
  demoView emptyParagraph (JSBool false) false.

(** A view that lost focus, in an editor that is not editable, with the
    caret nested three levels deep. *)
Definition nestedUnfocusedView : EditorView :=
  {| state :=
       {| doc := ElemNode docType [emptyParagraph];
          selection :=
            Selection.mk {| parent := emptyParagraph; depth := 3; pos := 3 |}
                         {| parent := emptyParagraph; depth := 3; pos := 3 |}
                         true 3 3;
          floatingMenuState := {| showFloatingMenu := JSBool true |} |};
     composing := false; hasFocus := false; dom := 1 |}.

Definition readOnlyEditor : Editor :=
  {| isEditable := false; schema := demoSchema; view := nestedUnfocusedView;
     editorIsAttached := true |}.

(** ** Sequences of events and of transactions *)

(** The rectangle source an update cycle hands to the overlay. *)
Definition rectFor (v : FloatingMenuView) (view : EditorView) : RectSource :=
  match tippyOptions v with
  | Some c => RectConfigured c
  | None => RectCaret (Selection.from (selection (state view)))
                      (Selection.to (selection (state view)))
  end.

(** The properties an update cycle hands to [shouldShow]. *)
Definition updateProps (env : Env) (view : EditorView)
    (oldState : option EditorState) : ShowProps :=
  {| p_editor := editor env; p_view := view; p_state := state view;
     p_oldState := oldState |}.

(** Events handled one after the other, each with the outside as it is
    when it arrives. *)
Fixpoint handleAll (evs : list (Env * Event)) : M unit :=
  match evs with
  | [] => mret tt
  | (env, ev) :: rest => handle env ev;; handleAll rest
  end.

(** The editor state after a series of metadata-only transactions. *)
Definition applyTransactions (st : EditorState) (trs : list Transaction)
  : EditorState :=
  fold_left applyTransaction trs st.

(** The view once the editor has installed a new state in it. *)
Definition updateState (view : EditorView) (st : EditorState) : EditorView :=
  {| state := st; composing := composing view; hasFocus := hasFocus view;
     dom := dom view |}.

(** A call to the overlay instance or to its factory. *)
Definition isOverlayCall (c : Call) : bool :=
  match c with
  | TippyCreate | TippyShow | TippyHide | TippySetProps _ | TippyDestroy => true
  | _ => false
  end.

(** How many overlay instances a series of calls creates. *)
Definition isCreateCall (c : Call) : bool :=
  match c with TippyCreate => true | _ => false end.

Definition creations (l : list Call) : nat :=
  length (List.filter isCreateCall l).

(** An event that runs an update cycle. *)
Definition isUpdateEvent (ev : Event) : bool :=
  match ev with
  | EvUpdate _ _ | EvTask TaskUpdate => true
  | _ => false
  end.

(** The calls of a run, console messages aside. *)
Definition isConsoleLog (c : Call) : bool :=
  match c with ConsoleLog _ => true | _ => false end.

Definition withoutConsole (l : list Call) : list Call :=
  List.filter (fun c => negb (isConsoleLog c)) l.

(** The focus handoff as it runs: [onShow], its timeout, the blur of the
    editor when one arrives, the animation frame; the editor may run update
    cycles in between (every transaction it dispatches runs one). *)
Definition handoffSeries (e1 e2 e4 : Env)
    (blur : option (Env * option FocusEvent))
    (us1 us2 us3 : list (Env * Event)) : list (Env * Event) :=
  ([(e1, EvOnShow)] ++ us1 ++ [(e2, EvTask TaskHandoff)] ++ us2
   ++ match blur with
      | Some (e3, event) => [(e3, EvBlur event)]
      | None => []
      end
   ++ us3 ++ [(e4, EvTask TaskRestoreFocus)])%list.

(** A series of events takes the controller from [v] to [v'] with the
    calls [cs], console messages aside. *)
Definition runs (evs : list (Env * Event)) (v v' : FloatingMenuView)
    (cs : list Call) : Prop :=
  result (handleAll evs v) = v'
  /\ withoutConsole (calls (handleAll evs v)) = cs.

(** An event whose handler hands control to the editor or moves the focus
    before it returns (Escape: [editor.commands.focus()], the handoff
    timeout: [editor.commands.blur()], the animation frame:
    [textarea.focus()]), so that the editor may run an update cycle inside
    it. *)
Definition entersEditor (ev : Event) : bool :=
  match ev with
  | EvKeydown key => String.eqb key "Escape"
  | EvTask TaskHandoff | EvTask TaskRestoreFocus => true
  | _ => false
  end.

(** * Verification *)

(** ** Strings, sizes and serialization *)

Lemma nonEmptyString_false (s : string) : nonEmptyString s = false <-> s = "".
Proof.
  unfold nonEmptyString. rewrite negb_false_iff. apply String.eqb_eq.
Qed.


Lemma fragmentSize_unfold (t : NodeType) (c : list Node) :
  nodeSize (ElemNode t c) = if isLeaf t then 1 else 2 + fragmentSize c.
Proof.
  simpl. destruct (isLeaf t); reflexivity.
Qed.




Lemma childCount_zero (n : Node) : childCount n = 0 <-> content_of n = [].
Proof. unfold childCount. destruct (content_of n); simpl; easy. Qed.

(** A node without children serializes to the empty string, whatever the
    schema's serializers are. *)
Lemma getText_no_children (n : Node) (sers : gmap string string) :
  childCount n = 0 -> getText n sers = "".
Proof.
  intros H. apply childCount_zero in H. unfold getText. now rewrite H.
Qed.


(** ** The two caret-context predicates *)

Lemma isEmptyTextBlock_spec (ed : Editor) (p : ResolvedPos) :
  isEmptyTextBlock ed p = true <-> caretContextSpec ed p.
Proof.
  unfold isEmptyTextBlock, caretContextSpec, getTextContent.
  rewrite !andb_true_iff, !negb_true_iff, !nonEmptyString_false,
    Nat.eqb_eq.
  tauto.
Qed.

Lemma isEmptyParagraph_spec (p : ResolvedPos) (ed : Editor) :
  isEmptyParagraph p ed = true <->
  name (typeOf (parent p)) = "paragraph"
  /\ contentSize (parent p) = 0
  /\ getText (parent p) (getTextSerializersFromSchema (schema ed)) = "".
Proof.
  unfold isEmptyParagraph.
  destruct (_ && _ && _) eqn:E.
  - apply andb_prop in E as [E E3]. apply andb_prop in E as [E1 E2].
    apply String.eqb_eq in E1. apply Nat.eqb_eq in E2.
    apply negb_true_iff, nonEmptyString_false in E3. tauto.
  - split; [discriminate |]. intros (H1 & H2 & H3).
    apply String.eqb_eq in H1. apply Nat.eqb_eq in H2.
    apply nonEmptyString_false, negb_true_iff in H3.
    rewrite H1, H2, H3 in E. discriminate.
Qed.


(** The empty heading of the demo's schema: a plain textblock without
    content, whose type is not named paragraph. *)
Example emptyHeading_is_eligible (v : EditorView) :
  caretContextSpec (demoEditor v) (caretIn emptyHeading 1).
Proof. repeat split. Qed.

Example emptyHeading_not_paragraph (v : EditorView) :
  isEmptyParagraph (caretIn emptyHeading 1) (demoEditor v) = false.
Proof. reflexivity. Qed.




(** C6: the default [shouldShow] returns true iff the view has focus, the
    selection is collapsed, the anchor is at depth 1, the anchor's parent is
    an empty eligible textblock (conditions (a) to (e)) and the editor is
    editable; if a conjunct fails it returns false. *)
Theorem C6_default_shouldShow (ed : Editor) (props : ShowProps) :
  (defaultShouldShow ed props = true <-> defaultConjuncts ed props)
  /\ (~ defaultConjuncts ed props -> defaultShouldShow ed props = false).
Proof.
  assert (H : defaultShouldShow ed props = true <-> defaultConjuncts ed props).
  { unfold defaultShouldShow, defaultConjuncts.
    rewrite <- isEmptyTextBlock_spec.
    destruct (hasFocus _), (Selection.empty _), (isEmptyTextBlock ed _),
      (isEditable ed),
      (Nat.eqb_spec
         (depth (Selection.r_anchor (selection (p_state props)))) 1);
      simpl; intuition (try discriminate; try lia; auto). }
  split; [exact H |].
  rewrite <- H. destruct (defaultShouldShow ed props); intros; congruence.
Qed.

Lemma C6_default_shouldShow_witness :
  defaultShouldShow (demoEditor paragraphView) (showPropsOf paragraphView)
    = true
  /\ defaultShouldShow (demoEditor headingView)
       (showPropsOf (demoView emptyHeading (JSBool true) true)) = true
  /\ defaultShouldShow
       {| isEditable := false; schema := demoSchema; view := paragraphView;
          editorIsAttached := true |} (showPropsOf paragraphView) = false.
Proof.
  split; [| split].
  - apply (C6_default_shouldShow (demoEditor paragraphView)
             (showPropsOf paragraphView)).
    repeat split.
  - apply (C6_default_shouldShow (demoEditor headingView)
             (showPropsOf (demoView emptyHeading (JSBool true) true))).
    repeat split.
  - apply (C6_default_shouldShow
             {| isEditable := false; schema := demoSchema;
                view := paragraphView; editorIsAttached := true |}
             (showPropsOf paragraphView)).
    intros (_ & _ & _ & _ & H). discriminate H.
Defined.

(** ** The command and the keyboard shortcuts *)

(** C7, as stated, fails: with the selection end in an empty heading, an
    empty eligible textblock by conditions (a) to (e), the open key does not
    invoke [setFloatMenu] and the command returns false. *)
Lemma C7_counterexample :
  ~ (caretContextSpec (demoEditor headingView)
       (selectionEnd (commandPropsOf headingView))
     -> shortcutSpace (commandPropsOf headingView)
        = (true, [CommandsSetFloatMenu true])).
Proof.
  intros H.
  assert (Hs : caretContextSpec (demoEditor headingView)
                 (selectionEnd (commandPropsOf headingView)))
    by (repeat split).
  apply H in Hs. discriminate Hs.
Qed.

(** C7, amended: with a command context, the open key invokes
    [setFloatMenu(true)] and returns true when the end of the selection sits
    in an empty paragraph (type named paragraph, content of size zero, empty
    serialization), and returns false without invoking it otherwise; the
    close key invokes [setFloatMenu(false)] and returns true; without a
    command context both return false and invoke nothing; [setFloatMenu]
    itself returns true and, when a dispatch function is present, dispatches
    the transaction tagged with its argument. *)
Theorem C7_shortcuts (props : CommandProps) (b : bool) :
  (forall ed, c_editor props = Some ed ->
     (name (typeOf (parent (selectionEnd props))) = "paragraph"
      /\ contentSize (parent (selectionEnd props)) = 0
      /\ getText (parent (selectionEnd props))
                 (getTextSerializersFromSchema (schema ed)) = ""
      -> shortcutSpace props = (true, [CommandsSetFloatMenu true]))
     /\ (isEmptyParagraph (selectionEnd props) ed = false ->
         shortcutSpace props = (false, []))
     /\ shortcutEscape props = (true, [CommandsSetFloatMenu false]))
  /\ (c_editor props = None ->
      shortcutSpace props = (false, []) /\ shortcutEscape props = (false, []))
  /\ fst (setFloatMenu b props) = true
  /\ (c_dispatch props = true ->
      exists tr, snd (setFloatMenu b props) = [Dispatch tr]
                 /\ getMeta tr floatingMenuKey = JSBool b)
  /\ (c_dispatch props = false -> snd (setFloatMenu b props) = []).
Proof.
  unfold shortcutSpace, shortcutEscape, commands_command, spaceCommand,
    escapeCommand, setFloatMenu, selectionEnd.
  split; [| split; [| split; [| split]]].
  - intros ed Hed. rewrite Hed. split; [| split].
    + intros H. apply isEmptyParagraph_spec in H. now rewrite H.
    + intros H. now rewrite H.
    + reflexivity.
  - intros H. now rewrite H.
  - reflexivity.
  - intros H. rewrite H. eexists. split; [reflexivity |].
    unfold getMeta, setMeta. simpl. now rewrite lookup_insert_eq.
  - intros H. now rewrite H.
Qed.

Lemma C7_shortcuts_witness :
  shortcutSpace (commandPropsOf paragraphView)
    = (true, [CommandsSetFloatMenu true])
  /\ shortcutSpace (commandPropsOf headingView) = (false, [])
  /\ shortcutEscape (commandPropsOf headingView)
     = (true, [CommandsSetFloatMenu false]).
Proof.
  destruct (C7_shortcuts (commandPropsOf paragraphView) true)
    as (Hp & _).
  destruct (Hp (demoEditor paragraphView) eq_refl) as (Hopen & _ & _).
  destruct (C7_shortcuts (commandPropsOf headingView) true) as (Hh & _).
  destruct (Hh (demoEditor headingView) eq_refl) as (_ & Hfail & Hclose).
  split; [| split].
  - apply Hopen. repeat split.
  - apply Hfail. reflexivity.
  - exact Hclose.
Defined.

(** ** The plugin state reducer *)

Lemma getMeta_setMeta (tr : Transaction) (key : string) (v : JSValue) :
  getMeta (setMeta tr key v) key = v.
Proof. unfold getMeta, setMeta. simpl. now rewrite lookup_insert_eq. Qed.

Lemma apply_tagged (tr : Transaction) (value : PluginState)
    (oldState newState : EditorState) :
  isUndefined (getMeta tr floatingMenuKey) = false ->
  apply tr value oldState newState
  = {| showFloatingMenu := getMeta tr floatingMenuKey |}.
Proof. unfold apply. now intros ->. Qed.

Lemma apply_untagged (tr : Transaction) (value : PluginState)
    (oldState newState : EditorState) :
  isUndefined (getMeta tr floatingMenuKey) = true ->
  apply tr value oldState newState = {| showFloatingMenu := JSBool false |}.
Proof. unfold apply. intros ->. simpl. now destruct (_ && _). Qed.



(** The gate of the plugin, as a conjunction. *)
Lemma pluginShouldShow_eq (options : FloatingMenuPluginProps)
    (view : EditorView) :
  pluginShouldShow options view
  = Selection.empty (selection (state view))
    && isEmptyParagraph (Selection.r_anchor (selection (state view)))
                        (o_editor options)
    && truthy (showFloatingMenu (floatingMenuState (state view)))
    && configuredOrTrue options view.
Proof.
  unfold pluginShouldShow, configuredOrTrue.
  destruct (Selection.empty _), (isEmptyParagraph _ _), (truthy _);
    reflexivity.
Qed.

(** C10: whenever the metadata under the plugin key is defined, the reducer
    stores it verbatim, boolean or not; the plugin-level gate then tests the
    stored value for truthiness: it is the conjunction of the collapsed
    selection, the empty paragraph, the truthiness of the stored value and
    the configured predicate, so with the other three true it answers
    exactly what the truthiness of the stored value is. *)
Theorem C10_metadata_verbatim (tr : Transaction) (value : PluginState)
    (oldState newState : EditorState) (options : FloatingMenuPluginProps)
    (view : EditorView) :
  (getMeta tr floatingMenuKey <> JSUndefined ->
   apply tr value oldState newState
   = {| showFloatingMenu := getMeta tr floatingMenuKey |})
  /\ (pluginShouldShow options view = true ->
      truthy (showFloatingMenu (floatingMenuState (state view))) = true)
  /\ (truthy (showFloatingMenu (floatingMenuState (state view))) = false ->
      pluginShouldShow options view = false)
  /\ pluginShouldShow options view
     = Selection.empty (selection (state view))
       && isEmptyParagraph (Selection.r_anchor (selection (state view)))
                           (o_editor options)
       && truthy (showFloatingMenu (floatingMenuState (state view)))
       && configuredOrTrue options view
  /\ (Selection.empty (selection (state view)) = true ->
      isEmptyParagraph (Selection.r_anchor (selection (state view)))
                       (o_editor options) = true ->
      configuredOrTrue options view = true ->
      pluginShouldShow options view
      = truthy (showFloatingMenu (floatingMenuState (state view)))).
Proof.
  split; [| split; [| split; [| split]]].
  - intros H. apply apply_tagged.
    destruct (getMeta tr floatingMenuKey); simpl; congruence.
  - rewrite pluginShouldShow_eq. intros H.
    apply andb_prop in H as [H _]. now apply andb_prop in H as [_ H].
  - rewrite pluginShouldShow_eq. intros ->.
    now rewrite andb_false_r.
  - apply pluginShouldShow_eq.
  - intros He Hp Hc. rewrite pluginShouldShow_eq, He, Hp, Hc.
    simpl. apply andb_true_r.
Qed.

Lemma C10_metadata_verbatim_witness :
  apply stringTaggedTransaction init (state paragraphView)
        (state paragraphView)
  = {| showFloatingMenu := JSStr "open" |}
  /\ apply (setMeta emptyTransaction floatingMenuKey (JSNum NumNaN)) init
           (state paragraphView) (state paragraphView)
     = {| showFloatingMenu := JSNum NumNaN |}
  /\ pluginShouldShow (demoOptions paragraphView)
       (demoView emptyParagraph (JSNum (NumFinite 0 1)) false) = false
  /\ pluginShouldShow (demoOptions paragraphView)
       (demoView emptyParagraph (JSStr "open") false) = true
  /\ pluginShouldShow (demoOptions paragraphView)
       (demoView emptyParagraph (JSNum (NumFinite 1 2)) false) = true
  /\ pluginShouldShow (demoOptions paragraphView)
       (demoView emptyParagraph (JSNum NumNaN) false) = false.
Proof.
  split; [| split; [| split; [| split; [| split]]]].
  - destruct (C10_metadata_verbatim stringTaggedTransaction init
                (state paragraphView) (state paragraphView)
                (demoOptions paragraphView) paragraphView) as (Hv & _).
    apply Hv. discriminate.
  - destruct (C10_metadata_verbatim
                (setMeta emptyTransaction floatingMenuKey (JSNum NumNaN)) init
                (state paragraphView) (state paragraphView)
                (demoOptions paragraphView) paragraphView) as (Hv & _).
    apply Hv. discriminate.
  - destruct (C10_metadata_verbatim zeroTaggedTransaction init
                (state paragraphView) (state paragraphView)
                (demoOptions paragraphView)
                (demoView emptyParagraph (JSNum (NumFinite 0 1)) false))
      as (_ & _ & Hfalsy & _).
    apply Hfalsy. reflexivity.
  - destruct (C10_metadata_verbatim zeroTaggedTransaction init
                (state paragraphView) (state paragraphView)
                (demoOptions paragraphView)
                (demoView emptyParagraph (JSStr "open") false))
      as (_ & _ & _ & _ & Hexact).
    rewrite Hexact; reflexivity.
  - destruct (C10_metadata_verbatim zeroTaggedTransaction init
                (state paragraphView) (state paragraphView)
                (demoOptions paragraphView)
                (demoView emptyParagraph (JSNum (NumFinite 1 2)) false))
      as (_ & _ & _ & _ & Hexact).
    rewrite Hexact; reflexivity.
  - destruct (C10_metadata_verbatim zeroTaggedTransaction init
                (state paragraphView) (state paragraphView)
                (demoOptions paragraphView)
                (demoView emptyParagraph (JSNum NumNaN) false))
      as (_ & _ & _ & _ & Hexact).
    rewrite Hexact; reflexivity.
Defined.

(** ** The controller *)

Ltac run_M :=
  unfold update, createTooltip, setReferenceClientRect, destroy, blurHandler,
    tippyBlurHandler, keydownHandler, mousedownHandler, focusHandler, onShow,
    onHidden, show, hide, addListener, removeListener, result, calls;
  unfold mbind, M_bind, mret, M_ret, this, modify, call;
  simpl.

Lemma hide_run (v : FloatingMenuView) :
  hide v = (tt, v, match tippy v with Some _ => [TippyHide] | None => [] end).
Proof. run_M. now destruct (tippy v). Qed.

Lemma show_run (v : FloatingMenuView) :
  show v = (tt, v, match tippy v with Some _ => [TippyShow] | None => [] end).
Proof. run_M. now destruct (tippy v). Qed.

(** C5: an update cycle that finds a composition in progress, or the
    controller already marked visible, leaves the controller state and the
    overlay instance as they are and makes no call besides its console
    message: no show, no hide, no change of the anchor-rectangle source. *)
Theorem C5_update_skipped (env : Env) (view : EditorView)
    (oldState : option EditorState) (v : FloatingMenuView) :
  composing view = true \/ visible v = true ->
  result (update env view oldState v) = v
  /\ calls (update env view oldState v) = [ConsoleLog "update "]
  /\ (TippyShow ∉ calls (update env view oldState v))
  /\ (TippyHide ∉ calls (update env view oldState v))
  /\ (forall r, TippySetProps r ∉ calls (update env view oldState v))
  /\ (TippyCreate ∉ calls (update env view oldState v)).
Proof.
  intros H.
  assert (E : update env view oldState v = (tt, v, [ConsoleLog "update "])).
  { run_M. destruct H as [-> | ->]; [reflexivity |].
    now rewrite orb_true_r. }
  rewrite E. unfold result, calls. simpl.
  do 2 (split; [reflexivity |]).
  unfold not. repeat split; intros;
    match goal with
    | Hin : _ ∈ [_] |- _ => apply list_elem_of_singleton in Hin; discriminate
    end.
Qed.

Lemma C5_update_skipped_witness :
  result (update (demoEnv openView)
            (demoView emptyParagraph (JSBool true) true) None
            pluginController) = pluginController
  /\ result (update (demoEnv paragraphView) paragraphView None
               shownController) = shownController.
Proof.
  split.
  - apply (C5_update_skipped (demoEnv openView)
             (demoView emptyParagraph (JSBool true) true) None
             pluginController).
    left. reflexivity.
  - apply (C5_update_skipped (demoEnv paragraphView) paragraphView None
             shownController).
    right. reflexivity.
Defined.

(** *** Blur handling *)

Lemma blurHandler_consumes (env : Env) (event : option FocusEvent)
    (v : FloatingMenuView) :
  preventHide v = true ->
  blurHandler env event v = (tt, set_preventHide false v, []).
Proof. intros H. run_M. now rewrite H. Qed.

Lemma blurHandler_inside (env : Env) (event : option FocusEvent)
    (v : FloatingMenuView) :
  preventHide v = false -> focusStaysInside env event ->
  blurHandler env event v = (tt, v, []).
Proof.
  intros H (target & Ht & Hin). unfold blurHandler. rewrite Ht.
  run_M. rewrite H.
  destruct Hin as [(host & -> & ->) | ->]; [reflexivity |].
  rewrite bool_decide_eq_true_2 by reflexivity.
  destruct (elementParent env); [destruct (contains env _ _) |]; reflexivity.
Qed.

Lemma blurHandler_outside (env : Env) (event : option FocusEvent)
    (v : FloatingMenuView) :
  preventHide v = false -> ~ focusStaysInside env event ->
  blurHandler env event v = hide v.
Proof.
  intros H Hout. unfold focusStaysInside in Hout. unfold blurHandler.
  destruct (event ≫= relatedTarget) as [target |].
  - unfold mbind at 1, M_bind, this. rewrite H.
    destruct (elementParent env) as [host |] eqn:Hp.
    + destruct (contains env host target) eqn:Hc.
      { exfalso. apply Hout. exists target. eauto. }
      case_bool_decide as Hd.
      { exfalso. apply Hout. exists target. split; [easy |]. right.
        congruence. }
      destruct (hide v) as [[[] v'] l]. reflexivity.
    + case_bool_decide as Hd.
      { exfalso. apply Hout. exists target. split; [easy |]. right.
        congruence. }
      destruct (hide v) as [[[] v'] l]. reflexivity.
  - unfold mbind at 1, M_bind, this. rewrite H.
    rewrite bool_decide_eq_false_2 by discriminate.
    destruct (hide v) as [[[] v'] l]. reflexivity.
Qed.

Lemma focusStaysInside_dec (env : Env) (event : option FocusEvent) :
  focusStaysInside env event \/ ~ focusStaysInside env event.
Proof.
  unfold focusStaysInside.
  destruct (event ≫= relatedTarget) as [target |].
  - destruct (decide (target = dom (view (editor env)))) as [-> | Hd].
    { left. eauto. }
    destruct (elementParent env) as [host |].
    + destruct (contains env host target) eqn:Hc.
      * left. exists target. split; [reflexivity |]. left. eauto.
      * right. intros (t & Ht & [(h & Hh & Hc') | Hd']);
          injection Ht as <-; [injection Hh as <- |]; congruence.
    + right. intros (t & Ht & [(h & Hh & _) | Hd']);
        injection Ht as <-; congruence.
  - right. intros (t & Ht & _). discriminate.
Qed.



(** *** Teardown *)

Lemma destroy_run (v : FloatingMenuView) :
  destroy v
  = (tt,
     {| preventHide := false;
        forceHide := forceHide v;
        tippy := match tippy v with
                 | Some i => Some (mkInstance true (getReferenceClientRect i)
                                              (popperFirstChild i))
                 | None => None
                 end;
        visible := false;
        tippyOptions := tippyOptions v;
        shouldShow := shouldShow v;
        listeners :=
          (match tippy v with
           | Some i => if popperFirstChild i
                       then listeners v ∖ {[TippyContentBlur]}
                       else listeners v
           | None => listeners v
           end) ∖ {[ElementMousedown]} ∖ {[ElementKeydown]}
               ∖ {[EditorFocus]} ∖ {[EditorBlur]} |},
     match tippy v with Some _ => [TippyDestroy] | None => [] end).
Proof.
  destruct v as [ph fh [i |] vis topt ss ls]; run_M;
    [destruct (popperFirstChild i) |]; reflexivity.
Qed.

(** The invariant holds at construction and every handler keeps it. *)
Lemma listeners_wf_new (tippyOpts : option nat)
    (shouldShowOpt : option (ShowProps -> bool)) :
  listeners_wf (fst (new_FloatingMenuView tippyOpts shouldShowOpt)).
Proof.
  unfold listeners_wf. simpl. intros Hin. exfalso.
  repeat (apply elem_of_union in Hin as [Hin | Hin]);
    apply elem_of_singleton in Hin; discriminate.
Qed.

Lemma listeners_wf_same (v v' : FloatingMenuView) :
  listeners v' = listeners v ->
  (forall i, tippy v = Some i ->
     exists i', tippy v' = Some i' /\ popperFirstChild i' = popperFirstChild i) ->
  listeners_wf v -> listeners_wf v'.
Proof.
  unfold listeners_wf. intros Hl Ht Hwf Hin. rewrite Hl in Hin.
  destruct (Hwf Hin) as (i & Hi & Hf).
  destruct (Ht i Hi) as (i' & Hi' & Hf'). exists i'. split; congruence.
Qed.

Lemma createTooltip_run (env : Env) (v : FloatingMenuView) :
  createTooltip env v
  = if bool_decide (is_Some (tippy v)) || negb (editorIsAttached (editor env))
    then (tt, v, [])
    else (tt,
          set_listeners
            (if newPopperFirstChild env
             then {[TippyContentBlur]} ∪ listeners v else listeners v)
            (set_tippy
               (Some {| isDestroyed := false;
                        getReferenceClientRect :=
                          match tippyOptions v with
                          | Some c => RectConfigured c
                          | None => RectNull
                          end;
                        popperFirstChild := newPopperFirstChild env |}) v),
          [TippyCreate]).
Proof.
  run_M. destruct (bool_decide _ || _); [reflexivity |].
  destruct (newPopperFirstChild env); destruct v; reflexivity.
Qed.

Lemma listeners_wf_createTooltip (env : Env) (v : FloatingMenuView) :
  listeners_wf v -> listeners_wf (result (createTooltip env v)).
Proof.
  intros Hwf. rewrite createTooltip_run.
  destruct (bool_decide (is_Some (tippy v))) eqn:Hsome; simpl.
  { exact Hwf. }
  destruct (editorIsAttached (editor env)); simpl; [| exact Hwf].
  apply bool_decide_eq_false in Hsome.
  unfold listeners_wf, result. simpl. intros Hin.
  destruct (newPopperFirstChild env); [eauto |].
  destruct (Hwf Hin) as (i & Hi & _). exfalso. apply Hsome. now exists i.
Qed.

Lemma listeners_wf_update (env : Env) (view : EditorView)
    (oldState : option EditorState) (v : FloatingMenuView) :
  listeners_wf v -> listeners_wf (result (update env view oldState v)).
Proof.
  intros Hwf. unfold update, mbind, M_bind, this.
  destruct (composing view || visible v); [exact Hwf |].
  pose proof (listeners_wf_createTooltip env v Hwf) as Hwf1.
  destruct (createTooltip env v) as [[[] v1] l1]. unfold result in Hwf1.
  simpl in Hwf1.
  destruct (negb (callShouldShow _ _ _)).
  - rewrite hide_run. exact Hwf1.
  - unfold setReferenceClientRect, mbind, M_bind, this.
    destruct (tippy v1) as [i |] eqn:Hi.
    + unfold call, modify. rewrite show_run. unfold result. simpl.
      apply (listeners_wf_same v1); [reflexivity | | exact Hwf1].
      intros i0 Hi0. rewrite Hi in Hi0. injection Hi0 as <-.
      eexists. split; [reflexivity | now destruct (isDestroyed i)].
    + unfold mret, M_ret. rewrite show_run. exact Hwf1.
Qed.

Lemma listeners_wf_destroy (v : FloatingMenuView) :
  listeners_wf v -> listeners_wf (result (destroy v)).
Proof.
  intros Hwf. rewrite destroy_run. unfold listeners_wf, result in *. simpl.
  intros Hin. exfalso.
  repeat (apply elem_of_difference in Hin as [Hin _]).
  assert (Hin0 : TippyContentBlur ∈ listeners v).
  { destruct (tippy v) as [i |]; [destruct (popperFirstChild i) |]; auto.
    now apply elem_of_difference in Hin as [Hin _]. }
  destruct (Hwf Hin0) as (i & Hi & Hf). rewrite Hi, Hf in Hin.
  apply elem_of_difference in Hin as [_ Hin]. apply Hin.
  now apply elem_of_singleton.
Qed.

Lemma listeners_wf_handle (env : Env) (ev : Event) (v : FloatingMenuView) :
  listeners_wf v -> listeners_wf (result (handle env ev v)).
Proof.
  intros Hwf.
  assert (Hkeep : forall m : M unit,
             (forall w, listeners (result (m w)) = listeners w
                        /\ tippy (result (m w)) = tippy w) ->
             listeners_wf (result (m v))).
  { intros m Hm. destruct (Hm v) as [Hl Ht].
    apply (listeners_wf_same v); [exact Hl | | exact Hwf].
    intros i Hi. exists i. rewrite Ht. auto. }
  assert (Hblur : forall event, listeners_wf (result (blurHandler env event v))).
  { intros event. apply Hkeep. intros w.
    destruct (preventHide w) eqn:Hp.
    - now rewrite blurHandler_consumes.
    - destruct (focusStaysInside_dec env event) as [Hin | Hout].
      + now rewrite blurHandler_inside.
      + rewrite blurHandler_outside, hide_run by assumption. auto. }
  destruct ev as [| key | | event | event | view oldState | | | t |]; simpl.
  - apply Hkeep. intros w. run_M. auto.
  - apply Hkeep. intros w. run_M.
    destruct (String.eqb key "Escape"); simpl;
      [destruct (tippy w) eqn:Hw; simpl |]; auto.
  - apply Hkeep. intros w. run_M. auto.
  - apply Hblur.
  - apply Hblur.
  - now apply listeners_wf_update.
  - apply Hkeep. intros w. run_M. auto.
  - apply Hkeep. intros w. run_M. auto.
  - destruct t; simpl.
    + now apply listeners_wf_update.
    + apply Hkeep. intros w. run_M. auto.
    + apply Hkeep. intros w. run_M. destruct (textarea env); auto.
  - now apply listeners_wf_destroy.
Qed.

(** Every state reached from a freshly constructed controller satisfies the
    invariant. *)
Lemma reachable_listeners_wf (start v : FloatingMenuView) :
  listeners_wf start -> reachable start v -> listeners_wf v.
Proof.
  intros Hs Hr. induction Hr as [| v env ev _ IH]; [exact Hs |].
  now apply listeners_wf_handle.
Qed.

Lemma only_five_listeners (l : Listener) :
  l = ElementMousedown \/ l = ElementKeydown \/ l = EditorFocus
  \/ l = EditorBlur \/ l = TippyContentBlur.
Proof. destruct l; auto. Qed.

Lemma destroy_detaches_all (v : FloatingMenuView) :
  listeners_wf v -> listeners (result (destroy v)) = ∅.
Proof.
  intros Hwf. rewrite destroy_run. unfold result. simpl.
  apply set_eq. intros l. split; [| intros Hl; now apply not_elem_of_empty in Hl].
  intros Hl. exfalso.
  repeat (apply elem_of_difference in Hl as [Hl ?Hn]).
  rewrite !elem_of_singleton in *.
  destruct (only_five_listeners l) as [-> | [-> | [-> | [-> | ->]]]];
    try congruence.
  assert (Hin : TippyContentBlur ∈ listeners v).
  { destruct (tippy v) as [i |]; [destruct (popperFirstChild i) |]; auto.
    now apply elem_of_difference in Hl as [Hl _]. }
  destruct (Hwf Hin) as (i & Hi & Hf). rewrite Hi, Hf in Hl.
  apply elem_of_difference in Hl as [_ Hl]. apply Hl.
  now apply elem_of_singleton.
Qed.

Lemma destroy_idempotent (v : FloatingMenuView) :
  result (destroy (result (destroy v))) = result (destroy v).
Proof.
  rewrite (destroy_run (result (destroy v))), (destroy_run v).
  unfold result. simpl.
  f_equal.
  - now destruct (tippy v).
  - apply set_eq. intros l.
    destruct (tippy v) as [i |]; simpl;
      [destruct (popperFirstChild i) |];
      rewrite !elem_of_difference, !elem_of_singleton; tauto.
Qed.

(** C8: [destroy] removes the two DOM listeners and the two editor hooks,
    destroys the overlay instance when there is one (and removes the blur
    listener from its rendered content), and resets [preventHide] and
    [visible]. On a controller whose instance was never created it makes no
    call to the overlay; a second [destroy] in a row leaves the state as the
    first one left it; in both cases no listener stays attached. The model
    has no failing path because the code has none: every access to the
    instance is guarded. *)
Theorem C8_destroy (v : FloatingMenuView) :
  ((ElementMousedown ∉ listeners (result (destroy v)))
   /\ (ElementKeydown ∉ listeners (result (destroy v)))
   /\ (EditorFocus ∉ listeners (result (destroy v)))
   /\ (EditorBlur ∉ listeners (result (destroy v))))
  /\ (forall i, tippy v = Some i ->
        calls (destroy v) = [TippyDestroy]
        /\ tippy (result (destroy v))
           = Some (mkInstance true (getReferenceClientRect i)
                              (popperFirstChild i))
        /\ (popperFirstChild i = true ->
            TippyContentBlur ∉ listeners (result (destroy v))))
  /\ preventHide (result (destroy v)) = false
  /\ visible (result (destroy v)) = false
  /\ (tippy v = None ->
      calls (destroy v) = [] /\ tippy (result (destroy v)) = None)
  /\ result (destroy (result (destroy v))) = result (destroy v)
  /\ (listeners_wf v ->
      listeners (result (destroy v)) = ∅
      /\ listeners (result (destroy (result (destroy v)))) = ∅).
Proof.
  split; [| split; [| split; [| split; [| split; [| split]]]]].
  - rewrite destroy_run. unfold result. simpl.
    rewrite !elem_of_difference, !elem_of_singleton.
    repeat split; intros H; decompose [and] H; congruence.
  - intros i Hi. rewrite destroy_run. unfold result, calls. simpl.
    rewrite Hi. split; [reflexivity |]. split; [reflexivity |].
    intros ->. rewrite !elem_of_difference, !elem_of_singleton.
    intros H. decompose [and] H. congruence.
  - now rewrite destroy_run.
  - now rewrite destroy_run.
  - intros Hn. rewrite destroy_run. unfold result, calls. simpl.
    now rewrite Hn.
  - apply destroy_idempotent.
  - intros Hwf. rewrite destroy_idempotent.
    split; now apply destroy_detaches_all.
Qed.

Lemma C8_destroy_witness :
  calls (destroy shownController) = [TippyDestroy]
  /\ calls (destroy pluginController) = []
  /\ tippy (result (destroy pluginController)) = None
  /\ listeners (result (destroy shownController)) = ∅
  /\ listeners (result (destroy (result (destroy pluginController)))) = ∅.
Proof.
  destruct (C8_destroy shownController) as (_ & Hinst & _ & _ & _ & _ & Hall).
  destruct (C8_destroy pluginController) as (_ & _ & _ & _ & Hnone & _ & Hall').
  assert (Hwf : listeners_wf pluginController).
  { intros Hin. vm_compute in Hin. discriminate Hin. }
  assert (Hwf' : listeners_wf shownController).
  { intros _. eexists. split; reflexivity. }
  split; [| split; [| split; [| split]]].
  - eapply Hinst. reflexivity.
  - apply Hnone. reflexivity.
  - apply Hnone. reflexivity.
  - now apply Hall.
  - now apply Hall'.
Defined.

(** *** The gate and the update cycle *)


(** The plugin's factory installs its wrapper whatever the options are. *)
Lemma plugin_installs_wrapper (options : FloatingMenuPluginProps) :
  shouldShow (fst (FloatingMenuPlugin_view options))
  = ConfiguredShouldShow (fun props => pluginShouldShow options (p_view props)).
Proof. reflexivity. Qed.

(** No handler replaces the [shouldShow] member. *)
Lemma shouldShow_stable (env : Env) (ev : Event) (v : FloatingMenuView) :
  shouldShow (result (handle env ev v)) = shouldShow v.
Proof.
  assert (Hupd : forall view oldState,
             shouldShow (result (update env view oldState v)) = shouldShow v).
  { intros view oldState.
    destruct v as [ph fh [i |] vis topt ss ls]; run_M;
      destruct (composing view), vis; simpl; try reflexivity;
      destruct (editorIsAttached (editor env)); simpl; try reflexivity;
      try (destruct (newPopperFirstChild env)); simpl;
      destruct (callShouldShow _ _ _); reflexivity. }
  assert (Hblur : forall event,
             shouldShow (result (blurHandler env event v)) = shouldShow v).
  { intros event. destruct (preventHide v) eqn:Hp.
    - now rewrite blurHandler_consumes.
    - destruct (focusStaysInside_dec env event) as [Hin | Hout].
      + now rewrite blurHandler_inside.
      + now rewrite blurHandler_outside, hide_run. }
  destruct ev as [| key | | event | event | view oldState | | | t |]; simpl.
  - reflexivity.
  - unfold keydownHandler. destruct (String.eqb key "Escape"); run_M;
      [destruct (tippy v) |]; reflexivity.
  - reflexivity.
  - apply Hblur.
  - apply Hblur.
  - apply Hupd.
  - reflexivity.
  - reflexivity.
  - destruct t; simpl; [apply Hupd | reflexivity |].
    run_M. now destruct (textarea env).
  - now rewrite destroy_run.
Qed.

Lemma reachable_shouldShow (start v : FloatingMenuView) :
  reachable start v -> shouldShow v = shouldShow start.
Proof.
  intros Hr. induction Hr as [| v env ev _ IH]; [reflexivity |].
  now rewrite shouldShow_stable.
Qed.



Example shownController_reachable :
  reachable pluginController shownController /\ visible shownController = true.
Proof.
  split; [| reflexivity].
  apply (reachable_step _ _ (demoEnv openView) EvOnShow).
  apply (reachable_step _ _ (demoEnv openView) (EvUpdate openView None)).
  apply reachable_start.
Qed.




(** C9: the plugin's factory installs its wrapper as the view's
    [shouldShow], and no handler replaces it; when no [shouldShow] option is
    supplied the effective predicate is exactly: selection collapsed, anchor
    in an empty paragraph, plugin flag truthy. It reads nothing but these
    three, so the default predicate's focus, depth and editability checks
    are not consulted. *)
Theorem C9_effective_predicate (options : FloatingMenuPluginProps)
    (v : FloatingMenuView) (this_editor : Editor) (props : ShowProps) :
  reachable (fst (FloatingMenuPlugin_view options)) v ->
  o_shouldShow options = None ->
  shouldShow v
  = ConfiguredShouldShow (fun props => pluginShouldShow options (p_view props))
  /\ callShouldShow (shouldShow v) this_editor props
     = Selection.empty (selection (state (p_view props)))
       && isEmptyParagraph
            (Selection.r_anchor (selection (state (p_view props))))
            (o_editor options)
       && truthy (showFloatingMenu
                    (floatingMenuState (state (p_view props))))
  /\ (forall this_editor' props',
        Selection.empty (selection (state (p_view props')))
        = Selection.empty (selection (state (p_view props))) ->
        parent (Selection.r_anchor (selection (state (p_view props'))))
        = parent (Selection.r_anchor (selection (state (p_view props)))) ->
        showFloatingMenu (floatingMenuState (state (p_view props')))
        = showFloatingMenu (floatingMenuState (state (p_view props))) ->
        callShouldShow (shouldShow v) this_editor' props'
        = callShouldShow (shouldShow v) this_editor props).
Proof.
  intros Hr Hnone.
  assert (Hss : shouldShow v
                = ConfiguredShouldShow
                    (fun props => pluginShouldShow options (p_view props))).
  { rewrite (reachable_shouldShow _ _ Hr). apply plugin_installs_wrapper. }
  assert (Heq : forall ed p,
             callShouldShow (shouldShow v) ed p
             = Selection.empty (selection (state (p_view p)))
               && isEmptyParagraph
                    (Selection.r_anchor (selection (state (p_view p))))
                    (o_editor options)
               && truthy (showFloatingMenu
                            (floatingMenuState (state (p_view p))))).
  { intros ed p. rewrite Hss. simpl. rewrite pluginShouldShow_eq.
    unfold configuredOrTrue. rewrite Hnone. apply andb_true_r. }
  split; [exact Hss |]. split; [apply Heq |].
  intros ed' props' He Hp Hf. rewrite !Heq, He, Hf.
  unfold isEmptyParagraph. now rewrite Hp.
Qed.

Lemma C9_effective_predicate_witness :
  callShouldShow (shouldShow shownController) readOnlyEditor
    (showPropsOf nestedUnfocusedView) = true
  /\ defaultShouldShow readOnlyEditor (showPropsOf nestedUnfocusedView)
     = false.
Proof.
  split; [| reflexivity].
  destruct (C9_effective_predicate (demoOptions openView) shownController
              readOnlyEditor (showPropsOf nestedUnfocusedView))
    as (_ & Heq & _).
  - apply (reachable_step _ _ (demoEnv openView) EvOnShow).
    apply (reachable_step _ _ (demoEnv openView) (EvUpdate openView None)).
    apply reachable_start.
  - reflexivity.
  - rewrite Heq. reflexivity.
Defined.

(** ** The reducer's comparison of states, and two scenarios *)

Lemma Node_eqb_refl (n : Node) : Node_eqb n n = true.
Proof.
  induction n as [s | t c IH] using Node_nested_ind; simpl.
  - apply String.eqb_refl.
  - rewrite bool_decide_eq_true_2 by reflexivity. simpl.
    induction IH as [| x r Hx _ IHr]; [reflexivity |].
    now rewrite Hx, IHr.
Qed.

Lemma Selection_eqb_refl (s : Selection.t) : Selection_eqb s s = true.
Proof. unfold Selection_eqb. now rewrite !Nat.eqb_refl. Qed.

(** A transaction that changes nothing and carries no metadata still resets
    the flag: both branches of the reducer's comparison return false. *)
Example untagged_noop_resets (st : EditorState) :
  Node_eqb (doc st) (doc st) && Selection_eqb (selection st) (selection st)
  = true
  /\ floatingMenuState (applyTransaction st emptyTransaction)
     = {| showFloatingMenu := JSBool false |}.
Proof.
  rewrite Node_eqb_refl, Selection_eqb_refl. split; [reflexivity |].
  simpl. now apply apply_untagged.
Qed.

(** Caret in a new empty paragraph at the document root, view focused and
    editable: the open key runs [setFloatMenu(true)], the dispatched
    transaction turns the flag from false to true, the next update cycle
    shows the overlay and its [onShow] marks the controller visible. *)
Example open_key_scenario :
  showFloatingMenu (floatingMenuState (state paragraphView)) = JSBool false
  /\ shortcutSpace (commandPropsOf paragraphView)
     = (true, [CommandsSetFloatMenu true])
  /\ snd (setFloatMenu true (commandPropsOf paragraphView))
     = [Dispatch (setMeta emptyTransaction floatingMenuKey (JSBool true))]
  /\ applyTransaction (state paragraphView)
       (setMeta emptyTransaction floatingMenuKey (JSBool true))
     = state openView
  /\ calls (update (demoEnv openView) openView (Some (state paragraphView))
              pluginController)
     = [TippyCreate; TippySetProps (RectCaret 1 1); TippyShow]
  /\ visible shownController = true.
Proof. repeat split. Qed.

(** * Further properties of the code *)

(** ** The update cycle in full *)

Lemma update_run (env : Env) (view : EditorView)
    (oldState : option EditorState) (v : FloatingMenuView) :
  update env view oldState v
  = if composing view || visible v then (tt, v, [ConsoleLog "update "])
    else if callShouldShow (shouldShow v) (editor env)
              (updateProps env view oldState)
    then match tippy (result (createTooltip env v)) with
         | Some i =>
             (tt,
              set_tippy (Some (if isDestroyed i then i
                               else mkInstance false (rectFor v view)
                                               (popperFirstChild i)))
                        (result (createTooltip env v)),
              (calls (createTooltip env v)
               ++ [TippySetProps (rectFor v view); TippyShow])%list)
         | None =>
             (tt, result (createTooltip env v), calls (createTooltip env v))
         end
    else (tt, result (createTooltip env v),
          (calls (createTooltip env v)
           ++ match tippy (result (createTooltip env v)) with
              | Some _ => [TippyHide]
              | None => []
              end)%list).
Proof.
  unfold rectFor, updateProps. rewrite createTooltip_run.
  destruct v as [ph fh [i |] vis topt ss ls]; run_M;
    destruct (composing view), vis; simpl; try reflexivity.
  - destruct (callShouldShow ss _ _); reflexivity.
  - destruct (editorIsAttached (editor env)); simpl;
      [destruct (newPopperFirstChild env); simpl |];
      destruct (callShouldShow ss _ _); reflexivity.
Qed.

Lemma createTooltip_calls (env : Env) (v : FloatingMenuView) (c : Call) :
  c ∈ calls (createTooltip env v) -> c = TippyCreate.
Proof.
  rewrite createTooltip_run.
  destruct (bool_decide _ || _); unfold calls; simpl.
  - intros H. now apply elem_of_nil in H.
  - intros H. now apply list_elem_of_singleton in H.
Qed.

Lemma createTooltip_available (env : Env) (v : FloatingMenuView) :
  is_Some (tippy (result (createTooltip env v)))
  <-> is_Some (tippy v) \/ editorIsAttached (editor env) = true.
Proof.
  rewrite createTooltip_run.
  destruct (tippy v) as [i |] eqn:Hi.
  - rewrite bool_decide_eq_true_2 by eauto. simpl. unfold result. simpl.
    rewrite Hi. split; eauto.
  - rewrite bool_decide_eq_false_2 by (intros [? ?]; discriminate).
    destruct (editorIsAttached (editor env)); unfold result; simpl.
    + split; eauto.
    + rewrite Hi. split; [intros [? ?]; discriminate |].
      intros [[? ?] | ?]; discriminate.
Qed.

(** An existing instance is never replaced. *)
Lemma createTooltip_keeps (env : Env) (v : FloatingMenuView) (i : Instance) :
  tippy v = Some i -> createTooltip env v = (tt, v, []).
Proof.
  intros Hi. rewrite createTooltip_run.
  rewrite bool_decide_eq_true_2 by (rewrite Hi; eauto). reflexivity.
Qed.

(** When an update cycle calls show, whatever the installed predicate is. *)
Lemma update_shows_iff (env : Env) (view : EditorView)
    (oldState : option EditorState) (v : FloatingMenuView) :
  (TippyShow ∈ calls (update env view oldState v)) <->
  composing view = false /\ visible v = false
  /\ (is_Some (tippy v) \/ editorIsAttached (editor env) = true)
  /\ callShouldShow (shouldShow v) (editor env)
       (updateProps env view oldState) = true.
Proof.
  rewrite update_run, <- createTooltip_available.
  destruct (composing view), (visible v); simpl;
    try (unfold calls; simpl; rewrite list_elem_of_singleton;
         split; [discriminate | intros (? & ? & _); discriminate]).
  destruct (callShouldShow _ _ _).
  - destruct (tippy (result (createTooltip env v))) as [i |];
      unfold calls at 1; simpl.
    + rewrite elem_of_app, !elem_of_cons. split; eauto 10.
    + split.
      * intros H. apply createTooltip_calls in H. discriminate.
      * intros (_ & _ & [? ?] & _). discriminate.
  - unfold calls at 1. simpl. rewrite elem_of_app. split.
    + intros [H | H].
      * apply createTooltip_calls in H. discriminate.
      * destruct (tippy _); [apply list_elem_of_singleton in H |
                             apply elem_of_nil in H]; easy.
    + intros (_ & _ & _ & ?). discriminate.
Qed.

Lemma createTooltip_instance (env : Env) (v : FloatingMenuView)
    (i : Instance) :
  tippy (result (createTooltip env v)) = Some i ->
  tippy v = Some i \/ (tippy v = None /\ isDestroyed i = false).
Proof.
  rewrite createTooltip_run.
  destruct (tippy v) as [i0 |] eqn:Hi.
  - rewrite bool_decide_eq_true_2 by eauto. unfold result. simpl.
    rewrite Hi. auto.
  - rewrite bool_decide_eq_false_2 by (intros [? ?]; discriminate).
    destruct (editorIsAttached (editor env)); unfold result; simpl.
    + intros [= <-]. auto.
    + rewrite Hi. discriminate.
Qed.

(** X1: an update cycle never both shows and hides; a cycle that shows
    first hands the overlay its anchor rectangle source (the configured one,
    else the caret rectangle of the selection's from and to), and afterwards
    an instance that is not destroyed holds that source, while a destroyed
    one is the instance the controller had, unchanged; a cycle that hides
    leaves an existing instance exactly as it was. *)
Theorem X1_update_show_or_hide (env : Env) (view : EditorView)
    (oldState : option EditorState) (v : FloatingMenuView) :
  ~ ((TippyShow ∈ calls (update env view oldState v))
     /\ (TippyHide ∈ calls (update env view oldState v)))
  /\ ((TippyShow ∈ calls (update env view oldState v)) ->
      (exists pre,
          calls (update env view oldState v)
          = (pre ++ [TippySetProps (rectFor v view); TippyShow])%list
          /\ forall c, c ∈ pre -> c = TippyCreate)
      /\ exists i, tippy (result (update env view oldState v)) = Some i
                   /\ (isDestroyed i = false ->
                       getReferenceClientRect i = rectFor v view)
                   /\ (isDestroyed i = true -> tippy v = Some i))
  /\ ((TippyHide ∈ calls (update env view oldState v)) ->
      (forall r, TippySetProps r ∉ calls (update env view oldState v))
      /\ forall i, tippy v = Some i ->
                   result (update env view oldState v) = v).
Proof.
  rewrite update_run.
  destruct (composing view || visible v).
  { unfold calls, result; simpl.
    repeat split; try (intros [H _]); try intros H;
      apply list_elem_of_singleton in H; discriminate. }
  destruct (callShouldShow _ _ _).
  - destruct (tippy (result (createTooltip env v))) as [i |] eqn:Hi;
      unfold calls, result; simpl.
    + split; [| split].
      * intros [_ H]. apply elem_of_app in H as [H | H].
        -- apply createTooltip_calls in H. discriminate.
        -- rewrite !elem_of_cons, elem_of_nil in H.
           destruct H as [H | [H | []]]; discriminate.
      * intros _. split.
        -- eexists. split; [reflexivity |]. apply createTooltip_calls.
        -- eexists. split; [reflexivity |].
           destruct (isDestroyed i) eqn:Hd; simpl; rewrite ?Hd.
           ++ split; [discriminate |]. intros _.
              destruct (createTooltip_instance env v i Hi) as [Hv | [_ Hf]];
                [exact Hv | congruence].
           ++ split; [reflexivity | discriminate].
      * intros H. exfalso. apply elem_of_app in H as [H | H].
        -- apply createTooltip_calls in H. discriminate.
        -- rewrite !elem_of_cons, elem_of_nil in H.
           destruct H as [H | [H | []]]; discriminate.
    + split; [| split].
      * intros [H _]. apply createTooltip_calls in H. discriminate.
      * intros H. apply createTooltip_calls in H. discriminate.
      * intros H. apply createTooltip_calls in H. discriminate.
  - unfold calls, result; simpl. split; [| split].
    + intros [H _]. apply elem_of_app in H as [H | H].
      * apply createTooltip_calls in H. discriminate.
      * destruct (tippy _); [apply list_elem_of_singleton in H |
                             apply elem_of_nil in H]; easy.
    + intros H. exfalso. apply elem_of_app in H as [H | H].
      * apply createTooltip_calls in H. discriminate.
      * destruct (tippy _); [apply list_elem_of_singleton in H |
                             apply elem_of_nil in H]; easy.
    + intros _. split.
      * intros r H. apply elem_of_app in H as [H | H].
        -- apply createTooltip_calls in H. discriminate.
        -- destruct (tippy _); [apply list_elem_of_singleton in H |
                                apply elem_of_nil in H]; easy.
      * intros i Hi. now rewrite (createTooltip_keeps env v i Hi).
Qed.

Lemma X1_update_show_or_hide_witness :
  (exists i, tippy (result (update (demoEnv openView) openView None
                              pluginController)) = Some i
             /\ getReferenceClientRect i = RectCaret 1 1)
  /\ (exists i, tippy (result (update (demoEnv openView) openView None
                                 (result (destroy shownController)))) = Some i
                /\ getReferenceClientRect i = RectCaret 1 1
                /\ isDestroyed i = true)
  /\ result (update (demoEnv collapsedView) collapsedView None
               (set_visible false shownController))
     = set_visible false shownController.
Proof.
  destruct (X1_update_show_or_hide (demoEnv openView) openView None
              pluginController) as (_ & Hshow & _).
  destruct (X1_update_show_or_hide (demoEnv openView) openView None
              (result (destroy shownController))) as (_ & Hstale & _).
  destruct (X1_update_show_or_hide (demoEnv collapsedView) collapsedView None
              (set_visible false shownController)) as (_ & _ & Hhide).
  split; [| split].
  - destruct Hshow as (_ & i & Hi & Hrect & _).
    + apply (bool_decide_unpack _). vm_compute. exact I.
    + exists i. split; [exact Hi |]. apply Hrect.
      vm_compute in Hi. injection Hi as <-. reflexivity.
  - destruct Hstale as (_ & i & Hi & _ & Hsame).
    + apply (bool_decide_unpack _). vm_compute. exact I.
    + exists i. vm_compute in Hi. injection Hi as <-.
      repeat split.
  - destruct Hhide as [_ Hkeep].
    + apply (bool_decide_unpack _). vm_compute. exact I.
    + eapply Hkeep. reflexivity.
Defined.

(** ** What each handler leaves alone *)

Lemma blurHandler_cases (env : Env) (event : option FocusEvent)
    (v : FloatingMenuView) :
  blurHandler env event v = (tt, set_preventHide false v, [])
  \/ blurHandler env event v = (tt, v, [])
  \/ (preventHide v = false /\ blurHandler env event v = hide v).
Proof.
  destruct (preventHide v) eqn:Hp.
  - left. now apply blurHandler_consumes.
  - destruct (focusStaysInside_dec env event) as [Hin | Hout].
    + right. left. now apply blurHandler_inside.
    + right. right. split; [reflexivity |]. now apply blurHandler_outside.
Qed.

Lemma keydownHandler_run (key : string) (v : FloatingMenuView) :
  keydownHandler key v
  = if String.eqb key "Escape"
    then (tt, set_preventHide true v,
          (match tippy v with Some _ => [TippyHide] | None => [] end
           ++ [EditorCommandsFocus])%list)
    else (tt, v, []).
Proof.
  unfold keydownHandler. destruct (String.eqb key "Escape"); [| reflexivity].
  run_M. now destruct (tippy v).
Qed.

(** The update cycle changes nothing but the instance and the listener on
    its content. *)
Lemma update_frame (env : Env) (view : EditorView)
    (oldState : option EditorState) (v : FloatingMenuView) :
  preventHide (result (update env view oldState v)) = preventHide v
  /\ forceHide (result (update env view oldState v)) = forceHide v
  /\ visible (result (update env view oldState v)) = visible v
  /\ tippyOptions (result (update env view oldState v)) = tippyOptions v
  /\ shouldShow (result (update env view oldState v)) = shouldShow v.
Proof.
  rewrite update_run, createTooltip_run.
  destruct (composing view || visible v); [repeat split |].
  destruct (bool_decide _ || _), (callShouldShow _ _ _); unfold result; simpl;
    try destruct (tippy v); repeat split.
Qed.

(** Every handler that is neither an update cycle nor [destroy] leaves the
    instance, the listeners and the configuration alone. *)
Lemma handle_other_frame (env : Env) (ev : Event) (v : FloatingMenuView) :
  isUpdateEvent ev = false -> ev <> EvDestroy ->
  tippy (result (handle env ev v)) = tippy v
  /\ listeners (result (handle env ev v)) = listeners v
  /\ forceHide (result (handle env ev v)) = forceHide v
  /\ tippyOptions (result (handle env ev v)) = tippyOptions v
  /\ shouldShow (result (handle env ev v)) = shouldShow v.
Proof.
  intros Hu Hd.
  assert (Hblur : forall event,
    tippy (result (blurHandler env event v)) = tippy v
    /\ listeners (result (blurHandler env event v)) = listeners v
    /\ forceHide (result (blurHandler env event v)) = forceHide v
    /\ tippyOptions (result (blurHandler env event v)) = tippyOptions v
    /\ shouldShow (result (blurHandler env event v)) = shouldShow v).
  { intros event.
    destruct (blurHandler_cases env event v) as [-> | [-> | [_ ->]]];
      try rewrite hide_run; repeat split. }
  destruct ev as [| key | | event | event | view oldState | | | t |];
    simpl in *; try discriminate; try congruence; try apply Hblur;
    try (repeat split; fail).
  - rewrite keydownHandler_run.
    destruct (String.eqb key "Escape"); repeat split.
  - destruct t; try discriminate; simpl; unfold result; run_M;
      try destruct (textarea env); repeat split.
Qed.

(** ... and its only possible call to the overlay is a hide, to an instance
    that exists. *)
Lemma handle_other_calls (env : Env) (ev : Event) (v : FloatingMenuView)
    (c : Call) :
  isUpdateEvent ev = false -> ev <> EvDestroy ->
  c ∈ calls (handle env ev v) -> isOverlayCall c = true ->
  c = TippyHide /\ is_Some (tippy v).
Proof.
  intros Hu Hd.
  assert (Hhide : c ∈ calls (hide v) -> c = TippyHide /\ is_Some (tippy v)).
  { rewrite hide_run. unfold calls. simpl.
    destruct (tippy v); [| now intros Hc%elem_of_nil].
    intros ->%list_elem_of_singleton. eauto. }
  assert (Hblur : forall event,
    c ∈ calls (blurHandler env event v) -> isOverlayCall c = true ->
    c = TippyHide /\ is_Some (tippy v)).
  { intros event.
    destruct (blurHandler_cases env event v) as [-> | [-> | [_ ->]]];
      [now intros Hc%elem_of_nil | now intros Hc%elem_of_nil | auto]. }
  destruct ev as [| key | | event | event | view oldState | | | t |];
    simpl in *; try discriminate; try congruence; try apply Hblur.
  - unfold mousedownHandler, calls. run_M.
    intros ->%list_elem_of_singleton. discriminate.
  - rewrite keydownHandler_run.
    destruct (String.eqb key "Escape"); unfold calls; simpl;
      [| now intros Hc%elem_of_nil].
    intros Hc Ho. apply elem_of_app in Hc as [Hc | Hc].
    + apply Hhide. now rewrite hide_run.
    + apply list_elem_of_singleton in Hc. subst. discriminate.
  - unfold focusHandler, calls. run_M.
    intros ->%list_elem_of_singleton. discriminate.
  - unfold calls. run_M. intros ->%list_elem_of_singleton. discriminate.
  - unfold calls. run_M. now intros Hc%elem_of_nil.
  - destruct t; try discriminate; unfold calls; run_M;
      try destruct (textarea env); simpl;
      rewrite ?elem_of_cons, ?elem_of_nil; intros Hc Ho;
      intuition (subst; discriminate).
Qed.

(** ** Lazy creation of the overlay instance *)

(** X2: without an instance, a creation attempt while the editor element is
    detached does nothing, and an update cycle that is not skipped then makes
    no call at all and leaves the controller as it is; once the element is
    attached the attempt creates one instance, not destroyed, holding the
    configured rectangle source (or none), registers the blur listener on
    its content iff the content exists, and a further attempt does
    nothing. *)
Theorem X2_lazy_creation (env env' : Env) (view : EditorView)
    (oldState : option EditorState) (v : FloatingMenuView) :
  tippy v = None ->
  (editorIsAttached (editor env) = false ->
   createTooltip env v = (tt, v, [])
   /\ (composing view = false -> visible v = false ->
       update env view oldState v = (tt, v, [])))
  /\ (editorIsAttached (editor env) = true ->
      calls (createTooltip env v) = [TippyCreate]
      /\ tippy (result (createTooltip env v))
         = Some {| isDestroyed := false;
                   getReferenceClientRect :=
                     match tippyOptions v with
                     | Some c => RectConfigured c
                     | None => RectNull
                     end;
                   popperFirstChild := newPopperFirstChild env |}
      /\ ((TippyContentBlur ∈ listeners (result (createTooltip env v)))
          <-> newPopperFirstChild env = true
              \/ (TippyContentBlur ∈ listeners v))
      /\ createTooltip env' (result (createTooltip env v))
         = (tt, result (createTooltip env v), [])).
Proof.
  intros Hn. split.
  - intros Ha.
    assert (Hc : createTooltip env v = (tt, v, [])).
    { rewrite createTooltip_run, Ha. simpl. now rewrite orb_true_r. }
    split; [exact Hc |]. intros Hcomp Hvis.
    rewrite update_run, Hcomp, Hvis, Hc. unfold result, calls. simpl.
    rewrite Hn. now destruct (callShouldShow _ _ _).
  - intros Ha.
    assert (Hc : createTooltip env v
                 = (tt,
                    set_listeners
                      (if newPopperFirstChild env
                       then {[TippyContentBlur]} ∪ listeners v
                       else listeners v)
                      (set_tippy
                         (Some {| isDestroyed := false;
                                  getReferenceClientRect :=
                                    match tippyOptions v with
                                    | Some c => RectConfigured c
                                    | None => RectNull
                                    end;
                                  popperFirstChild :=
                                    newPopperFirstChild env |}) v),
                    [TippyCreate])).
    { rewrite createTooltip_run, Ha, Hn.
      rewrite bool_decide_eq_false_2 by (intros [? ?]; discriminate).
      reflexivity. }
    rewrite Hc. unfold result, calls. simpl.
    split; [reflexivity |]. split; [reflexivity |]. split.
    + destruct (newPopperFirstChild env).
      * rewrite elem_of_union, elem_of_singleton. tauto.
      * split; [tauto | intros [? | ?]; [discriminate | assumption]].
    + eapply createTooltip_keeps. reflexivity.
Qed.

Lemma X2_lazy_creation_witness :
  calls (createTooltip (demoEnv openView) pluginController) = [TippyCreate]
  /\ update {| editor := {| isEditable := true; schema := demoSchema;
                            view := openView; editorIsAttached := false |};
               elementParent := None; contains := fun _ _ => false;
               newPopperFirstChild := true; textarea := true |}
            openView None pluginController
     = (tt, pluginController, []).
Proof.
  split.
  - apply (X2_lazy_creation (demoEnv openView) (demoEnv openView) openView
             None pluginController); reflexivity.
  - apply (X2_lazy_creation
             {| editor := {| isEditable := true; schema := demoSchema;
                             view := openView; editorIsAttached := false |};
                elementParent := None; contains := fun _ _ => false;
                newPopperFirstChild := true; textarea := true |}
             (demoEnv openView) openView None pluginController);
      reflexivity.
Defined.

(** ** Invariants of every reachable controller *)

Lemma update_listeners (env : Env) (view : EditorView)
    (oldState : option EditorState) (v : FloatingMenuView) (l : Listener) :
  l <> TippyContentBlur ->
  (l ∈ listeners (result (update env view oldState v))) <-> (l ∈ listeners v).
Proof.
  intros Hl. rewrite update_run, createTooltip_run.
  destruct (composing view || visible v); [reflexivity |].
  destruct (bool_decide _ || _), (callShouldShow _ _ _); unfold result; simpl;
    try (destruct (tippy v); reflexivity);
    destruct (newPopperFirstChild env); try reflexivity;
    rewrite elem_of_union, elem_of_singleton; tauto.
Qed.

Lemma Event_destroy_dec (ev : Event) : ev = EvDestroy \/ ev <> EvDestroy.
Proof. destruct ev; auto; right; discriminate. Qed.

(** The configuration is fixed at construction. *)
Lemma handle_config (env : Env) (ev : Event) (v : FloatingMenuView) :
  forceHide (result (handle env ev v)) = forceHide v
  /\ tippyOptions (result (handle env ev v)) = tippyOptions v.
Proof.
  destruct (isUpdateEvent ev) eqn:Hu.
  - destruct ev as [| | | | | view oldState | | | [] |]; try discriminate;
      simpl; split; apply update_frame.
  - destruct (Event_destroy_dec ev) as [-> | Hd].
    + simpl. now rewrite destroy_run.
    + destruct (handle_other_frame env ev v Hu Hd) as (_ & _ & ? & ? & _).
      now split.
Qed.

(** X3: in every state a controller reaches after its construction, the
    blur listener on the overlay's content is registered only while an
    instance with rendered content exists, and the two DOM listeners and the
    two editor hooks are registered all four or not at all. *)
Theorem X3_listener_invariant (tippyOpts : option nat)
    (shouldShowOpt : option (ShowProps -> bool)) (v : FloatingMenuView) :
  reachable (fst (new_FloatingMenuView tippyOpts shouldShowOpt)) v ->
  listeners_wf v
  /\ (((ElementMousedown ∈ listeners v) /\ (ElementKeydown ∈ listeners v)
       /\ (EditorFocus ∈ listeners v) /\ (EditorBlur ∈ listeners v))
      \/ ((ElementMousedown ∉ listeners v) /\ (ElementKeydown ∉ listeners v)
          /\ (EditorFocus ∉ listeners v) /\ (EditorBlur ∉ listeners v))).
Proof.
  intros Hr. split.
  { apply (reachable_listeners_wf _ _ (listeners_wf_new _ _) Hr). }
  induction Hr as [| v env ev _ IH].
  - left. simpl. rewrite !elem_of_union, !elem_of_singleton. tauto.
  - destruct (isUpdateEvent ev) eqn:Hu.
    + assert (Hl : forall l, l <> TippyContentBlur ->
                (l ∈ listeners (result (handle env ev v))) <-> (l ∈ listeners v)).
      { destruct ev as [| | | | | view oldState | | | [] |]; try discriminate;
          simpl; intros l Hl; now apply update_listeners. }
      rewrite !Hl by discriminate. exact IH.
    + destruct (Event_destroy_dec ev) as [-> | Hd].
      * right. simpl. rewrite destroy_run. unfold result. simpl.
        rewrite !elem_of_difference, !elem_of_singleton.
        repeat split; intros H; decompose [and] H; congruence.
      * destruct (handle_other_frame env ev v Hu Hd) as (_ & -> & _).
        exact IH.
Qed.

Lemma X3_listener_invariant_witness :
  listeners_wf shownController
  /\ (((ElementMousedown ∈ listeners (result (destroy shownController)))
       /\ (ElementKeydown ∈ listeners (result (destroy shownController)))
       /\ (EditorFocus ∈ listeners (result (destroy shownController)))
       /\ (EditorBlur ∈ listeners (result (destroy shownController))))
      \/ ((ElementMousedown ∉ listeners (result (destroy shownController)))
          /\ (ElementKeydown ∉ listeners (result (destroy shownController)))
          /\ (EditorFocus ∉ listeners (result (destroy shownController)))
          /\ (EditorBlur ∉ listeners (result (destroy shownController))))).
Proof.
  split.
  - apply (X3_listener_invariant None
             (Some (fun props =>
                      pluginShouldShow (demoOptions openView) (p_view props)))).
    apply (reachable_step _ _ (demoEnv openView) EvOnShow).
    apply (reachable_step _ _ (demoEnv openView) (EvUpdate openView None)).
    apply reachable_start.
  - apply (X3_listener_invariant None
             (Some (fun props =>
                      pluginShouldShow (demoOptions openView) (p_view props)))).
    apply (reachable_step _ _ (demoEnv openView) EvDestroy).
    apply (reachable_step _ _ (demoEnv openView) EvOnShow).
    apply (reachable_step _ _ (demoEnv openView) (EvUpdate openView None)).
    apply reachable_start.
Defined.

(** X4: nothing after the constructor touches the configuration: in every
    reachable state [forceHide] is false, the overlay options are the ones
    passed in, and [shouldShow] is the override passed in, or the class
    default when none was. *)
Theorem X4_configuration_fixed (tippyOpts : option nat)
    (shouldShowOpt : option (ShowProps -> bool)) (v : FloatingMenuView) :
  reachable (fst (new_FloatingMenuView tippyOpts shouldShowOpt)) v ->
  forceHide v = false
  /\ tippyOptions v = tippyOpts
  /\ shouldShow v = match shouldShowOpt with
                    | Some f => ConfiguredShouldShow f
                    | None => DefaultShouldShow
                    end.
Proof.
  intros Hr. split; [| split].
  - induction Hr as [| v env ev _ IH]; [reflexivity |].
    now rewrite (proj1 (handle_config env ev v)).
  - induction Hr as [| v env ev _ IH]; [reflexivity |].
    now rewrite (proj2 (handle_config env ev v)).
  - now rewrite (reachable_shouldShow _ _ Hr).
Qed.

Lemma X4_configuration_fixed_witness :
  forceHide shownController = false
  /\ tippyOptions shownController = None
  /\ shouldShow (result (destroy shownController))
     = ConfiguredShouldShow
         (fun props => pluginShouldShow (demoOptions openView) (p_view props)).
Proof.
  split; [| split].
  - apply (X4_configuration_fixed None
             (Some (fun props =>
                      pluginShouldShow (demoOptions openView) (p_view props)))).
    apply (reachable_step _ _ (demoEnv openView) EvOnShow).
    apply (reachable_step _ _ (demoEnv openView) (EvUpdate openView None)).
    apply reachable_start.
  - apply (X4_configuration_fixed None
             (Some (fun props =>
                      pluginShouldShow (demoOptions openView) (p_view props)))).
    apply (reachable_step _ _ (demoEnv openView) EvOnShow).
    apply (reachable_step _ _ (demoEnv openView) (EvUpdate openView None)).
    apply reachable_start.
  - apply (X4_configuration_fixed None
             (Some (fun props =>
                      pluginShouldShow (demoOptions openView) (p_view props)))).
    apply (reachable_step _ _ (demoEnv openView) EvDestroy).
    apply (reachable_step _ _ (demoEnv openView) EvOnShow).
    apply (reachable_step _ _ (demoEnv openView) (EvUpdate openView None)).
    apply reachable_start.
Defined.

(** ** One instance for the controller's whole life *)

Lemma handleAll_cons (env : Env) (ev : Event) (rest : list (Env * Event))
    (v : FloatingMenuView) :
  handleAll ((env, ev) :: rest) v
  = (tt, result (handleAll rest (result (handle env ev v))),
     (calls (handle env ev v)
      ++ calls (handleAll rest (result (handle env ev v))))%list).
Proof.
  simpl. unfold mbind, M_bind, result, calls.
  destruct (handle env ev v) as [[[] v1] l1]. simpl.
  destruct (handleAll rest v1) as [[[] v2] l2]. reflexivity.
Qed.

Lemma handleAll_reachable (evs : list (Env * Event)) (v : FloatingMenuView) :
  reachable v (result (handleAll evs v)).
Proof.
  assert (H : forall start, reachable start v ->
                            reachable start (result (handleAll evs v))).
  { revert v. induction evs as [| [env ev] rest IH]; intros v start Hr.
    - exact Hr.
    - rewrite handleAll_cons. unfold result at 1. simpl.
      apply IH. now apply reachable_step. }
  apply H. apply reachable_start.
Qed.

Lemma creations_app (l l' : list Call) :
  creations (l ++ l') = creations l + creations l'.
Proof. unfold creations. now rewrite List.filter_app, length_app. Qed.

Lemma creations_none (l : list Call) :
  (forall c, c ∈ l -> isCreateCall c = false) -> creations l = 0.
Proof.
  unfold creations. induction l as [| c l IH]; intros H; [reflexivity |].
  simpl. rewrite (H c) by apply list_elem_of_here.
  apply IH. intros c' Hc'. apply H. now apply list_elem_of_further.
Qed.

(** With an instance in place no handler creates another one, and the
    instance stays: same rendered content, and destroyed once destroyed. *)
Lemma handle_keeps_instance (env : Env) (ev : Event) (v : FloatingMenuView)
    (i : Instance) :
  tippy v = Some i ->
  creations (calls (handle env ev v)) = 0
  /\ exists i', tippy (result (handle env ev v)) = Some i'
                /\ popperFirstChild i' = popperFirstChild i
                /\ (isDestroyed i = true -> isDestroyed i' = true).
Proof.
  intros Hi.
  assert (Hupd : forall view oldState,
    creations (calls (update env view oldState v)) = 0
    /\ exists i', tippy (result (update env view oldState v)) = Some i'
                  /\ popperFirstChild i' = popperFirstChild i
                  /\ (isDestroyed i = true -> isDestroyed i' = true)).
  { intros view oldState. rewrite update_run.
    rewrite (createTooltip_keeps env v i Hi). unfold result, calls. simpl.
    rewrite Hi.
    destruct (composing view || visible v); simpl; [eauto 6 |].
    destruct (callShouldShow _ _ _); simpl; [| eauto 6].
    split; [reflexivity |]. eexists. split; [reflexivity |].
    destruct (isDestroyed i) eqn:Hd; simpl; rewrite ?Hd; auto. }
  destruct (isUpdateEvent ev) eqn:Hu.
  - destruct ev as [| | | | | view oldState | | | [] |]; try discriminate;
      simpl; apply Hupd.
  - destruct (Event_destroy_dec ev) as [-> | Hd].
    + simpl. rewrite destroy_run. unfold result, calls. simpl. rewrite Hi.
      split; [reflexivity |]. eauto.
    + split.
      * apply creations_none. intros c Hc.
        destruct (isOverlayCall c) eqn:Ho.
        -- destruct (handle_other_calls env ev v c Hu Hd Hc Ho) as [-> _].
           reflexivity.
        -- destruct c; try discriminate; reflexivity.
      * destruct (handle_other_frame env ev v Hu Hd) as (-> & _). eauto.
Qed.

(** Without an instance a handler creates at most one, and none if there is
    still no instance afterwards. *)
Lemma handle_creates_once (env : Env) (ev : Event) (v : FloatingMenuView) :
  tippy v = None ->
  creations (calls (handle env ev v))
  = match tippy (result (handle env ev v)) with Some _ => 1 | None => 0 end.
Proof.
  intros Hn.
  assert (Hupd : forall view oldState,
    creations (calls (update env view oldState v))
    = match tippy (result (update env view oldState v)) with
      | Some _ => 1 | None => 0 end).
  { intros view oldState. rewrite update_run, createTooltip_run, Hn.
    rewrite bool_decide_eq_false_2 by (intros [? ?]; discriminate).
    destruct (composing view || visible v); unfold result, calls; simpl;
      [now rewrite Hn |].
    destruct (editorIsAttached (editor env)); simpl;
      destruct (callShouldShow _ _ _); unfold result, calls; simpl;
      rewrite ?Hn; simpl; rewrite ?Hn; reflexivity. }
  destruct (isUpdateEvent ev) eqn:Hu.
  - destruct ev as [| | | | | view oldState | | | [] |]; try discriminate;
      simpl; apply Hupd.
  - destruct (Event_destroy_dec ev) as [-> | Hd].
    + simpl. rewrite destroy_run. unfold result, calls. simpl.
      now rewrite Hn.
    + destruct (handle_other_frame env ev v Hu Hd) as (-> & _). rewrite Hn.
      apply creations_none. intros c Hc.
      destruct (isOverlayCall c) eqn:Ho.
      * destruct (handle_other_calls env ev v c Hu Hd Hc Ho) as [-> _].
        reflexivity.
      * destruct c; try discriminate; reflexivity.
Qed.

(** X5: over any series of events the controller creates at most one
    overlay instance, and none if it already has one; an instance it has is
    never dropped or replaced (same rendered content afterwards) and, once
    destroyed, stays destroyed. *)
Theorem X5_single_instance (evs : list (Env * Event)) (v : FloatingMenuView) :
  creations (calls (handleAll evs v))
  <= match tippy v with Some _ => 0 | None => 1 end
  /\ (forall i, tippy v = Some i ->
        exists i', tippy (result (handleAll evs v)) = Some i'
                   /\ popperFirstChild i' = popperFirstChild i
                   /\ (isDestroyed i = true -> isDestroyed i' = true)).
Proof.
  revert v. induction evs as [| [env ev] rest IH]; intros v.
  - split; [destruct (tippy v); unfold creations, calls; simpl; lia |].
    intros i Hi. eauto.
  - rewrite handleAll_cons. unfold result at 1 2, calls at 1. simpl.
    rewrite creations_app.
    destruct (IH (result (handle env ev v))) as [IHc IHi].
    destruct (tippy v) as [i |] eqn:Hi.
    + destruct (handle_keeps_instance env ev v i Hi)
        as (Hc & i1 & Hi1 & Hf1 & Hd1).
      rewrite Hi1 in IHc. split; [lia |].
      intros i0 [= <-]. destruct (IHi i1 Hi1) as (i2 & Hi2 & Hf2 & Hd2).
      exists i2. repeat split; [assumption | congruence | auto].
    + rewrite (handle_creates_once env ev v Hi).
      split; [| discriminate].
      destruct (tippy (result (handle env ev v))); lia.
Qed.

Lemma X5_single_instance_witness :
  creations
    (calls (handleAll
              [(demoEnv openView, EvUpdate openView None);
               (demoEnv openView, EvOnShow);
               (demoEnv openView, EvDestroy);
               (demoEnv openView, EvOnHidden);
               (demoEnv openView, EvTask TaskUpdate)]
              pluginController)) <= 1
  /\ exists i', tippy (result (handleAll [(demoEnv openView, EvDestroy)]
                                 shownController)) = Some i'
                /\ popperFirstChild i' = true.
Proof.
  split.
  - apply (X5_single_instance
             [(demoEnv openView, EvUpdate openView None);
              (demoEnv openView, EvOnShow);
              (demoEnv openView, EvDestroy);
              (demoEnv openView, EvOnHidden);
              (demoEnv openView, EvTask TaskUpdate)] pluginController).
  - destruct (X5_single_instance [(demoEnv openView, EvDestroy)]
                shownController) as [_ H].
    destruct (H {| isDestroyed := false;
                   getReferenceClientRect := RectCaret 1 1;
                   popperFirstChild := true |} eq_refl) as (i' & Hi' & Hf & _).
    exists i'. split; assumption.
Defined.

(** X6: a deferred update that fires after [destroy] (the timer of the
    focus handler) finds the destroyed instance still in place: it creates
    no new one and, unless a composition is in progress, still calls show or
    hide on the destroyed instance. *)
Theorem X6_stale_update_after_destroy (env : Env) (v : FloatingMenuView)
    (i : Instance) :
  tippy v = Some i ->
  composing (view (editor env)) = false ->
  creations (calls (runTask env TaskUpdate (result (destroy v)))) = 0
  /\ ((TippyShow ∈ calls (runTask env TaskUpdate (result (destroy v))))
      \/ (TippyHide ∈ calls (runTask env TaskUpdate (result (destroy v)))))
  /\ exists i', tippy (result (runTask env TaskUpdate (result (destroy v))))
                = Some i'
                /\ isDestroyed i' = true.
Proof.
  intros Hi Hc. simpl.
  assert (Ht : tippy (result (destroy v))
               = Some (mkInstance true (getReferenceClientRect i)
                                  (popperFirstChild i))).
  { rewrite destroy_run. unfold result. simpl. now rewrite Hi. }
  assert (Hv : visible (result (destroy v)) = false)
    by now rewrite destroy_run.
  revert Ht Hv. generalize (result (destroy v)). intros w Ht Hv.
  rewrite update_run, Hc, Hv, (createTooltip_keeps _ _ _ Ht).
  unfold result, calls. simpl. rewrite Ht.
  destruct (callShouldShow _ _ _); simpl.
  - split; [reflexivity |]. split; [| eauto].
    left. rewrite !elem_of_cons. auto.
  - rewrite Ht. split; [reflexivity |]. split; [| eauto].
    right. now apply list_elem_of_singleton.
Qed.

Lemma X6_stale_update_after_destroy_witness :
  (TippyShow ∈ calls (runTask (demoEnv openView) TaskUpdate
                        (result (destroy shownController))))
  \/ (TippyHide ∈ calls (runTask (demoEnv openView) TaskUpdate
                           (result (destroy shownController)))).
Proof.
  eapply (X6_stale_update_after_destroy (demoEnv openView) shownController);
    reflexivity.
Defined.

(** ** Keyboard, blur veto and the focus handoff *)

(** X7: a keydown of any key other than Escape (the comparison is exact)
    leaves the controller untouched and makes no call; Escape sets
    [preventHide], calls hide on an existing instance and then returns the
    focus to the editor, and the blur that follows is consumed: it resets
    [preventHide] and does not hide a second time. *)
Theorem X7_escape_key (env : Env) (key : string) (event : option FocusEvent)
    (v : FloatingMenuView) :
  (key <> "Escape" -> keydownHandler key v = (tt, v, []))
  /\ keydownHandler "Escape" v
     = (tt, set_preventHide true v,
        (match tippy v with Some _ => [TippyHide] | None => [] end
         ++ [EditorCommandsFocus])%list)
  /\ blurHandler env event (result (keydownHandler "Escape" v))
     = (tt, set_preventHide false v, []).
Proof.
  split; [| split].
  - intros Hk. rewrite keydownHandler_run.
    apply String.eqb_neq in Hk. now rewrite Hk.
  - now rewrite keydownHandler_run.
  - rewrite keydownHandler_run. simpl.
    now rewrite blurHandler_consumes.
Qed.

Lemma X7_escape_key_witness :
  keydownHandler "escape" shownController = (tt, shownController, [])
  /\ calls (keydownHandler "Escape" shownController)
     = [TippyHide; EditorCommandsFocus].
Proof.
  destruct (X7_escape_key (demoEnv openView) "escape" unrelatedBlur
              shownController) as (Hother & Hescape & _).
  split.
  - apply Hother. discriminate.
  - rewrite Hescape. reflexivity.
Defined.

Lemma mousedownHandler_run (v : FloatingMenuView) :
  mousedownHandler v
  = (tt, set_preventHide true v, [ConsoleLog "mousedownHandler "]).
Proof. reflexivity. Qed.

(** X8: [preventHide] is a flag, not a counter: it vetoes exactly one blur.
    With it set, the first blur makes no call; a second blur whose focus
    leaves the overlay host and the document view runs hide. Two mousedowns
    in a row protect no more than one does. *)
Theorem X8_veto_is_one_shot (env env' : Env) (event event' : option FocusEvent)
    (v : FloatingMenuView) :
  preventHide v = true ->
  ~ focusStaysInside env' event' ->
  calls (blurHandler env event v) = []
  /\ calls (blurHandler env' event' (result (blurHandler env event v)))
     = match tippy v with Some _ => [TippyHide] | None => [] end
  /\ result (mousedownHandler (result (mousedownHandler v)))
     = result (mousedownHandler v).
Proof.
  intros Hp Hout. rewrite (blurHandler_consumes env event v Hp).
  split; [reflexivity |]. split; [| reflexivity].
  unfold result at 1. simpl.
  rewrite blurHandler_outside, hide_run by (assumption || reflexivity).
  reflexivity.
Qed.

Lemma X8_veto_is_one_shot_witness :
  calls (blurHandler (demoEnv openView) unrelatedBlur
           (result (blurHandler (demoEnv openView) unrelatedBlur
                      (result (mousedownHandler shownController)))))
  = [TippyHide].
Proof.
  apply (X8_veto_is_one_shot (demoEnv openView) (demoEnv openView)
           unrelatedBlur unrelatedBlur
           (result (mousedownHandler shownController))).
  - reflexivity.
  - intros (target & Ht & [(host & Hh & Hc) | Hd]).
    + injection Ht as <-. injection Hh as <-. discriminate Hc.
    + injection Ht as <-. discriminate Hd.
Defined.

Lemma handleAll_app (l1 l2 : list (Env * Event)) (v : FloatingMenuView) :
  handleAll (l1 ++ l2) v
  = (tt, result (handleAll l2 (result (handleAll l1 v))),
     (calls (handleAll l1 v)
      ++ calls (handleAll l2 (result (handleAll l1 v))))%list).
Proof.
  revert v. induction l1 as [| [env ev] rest IH]; intros v.
  - simpl. unfold mret, M_ret, result, calls. simpl.
    now destruct (handleAll l2 v) as [[[] v2] c2].
  - rewrite <- app_comm_cons, !handleAll_cons, IH.
    unfold result, calls. simpl. now rewrite app_assoc.
Qed.

Lemma withoutConsole_app (l l' : list Call) :
  withoutConsole (l ++ l') = (withoutConsole l ++ withoutConsole l')%list.
Proof. apply List.filter_app. Qed.

Lemma runs_app (l1 l2 : list (Env * Event)) (v v1 v2 : FloatingMenuView)
    (c1 c2 : list Call) :
  runs l1 v v1 c1 -> runs l2 v1 v2 c2 -> runs (l1 ++ l2) v v2 (c1 ++ c2).
Proof.
  unfold runs. intros [<- <-] [<- <-]. rewrite handleAll_app.
  unfold result at 1, calls at 1. simpl.
  split; [reflexivity | apply withoutConsole_app].
Qed.

Lemma runs_one (env : Env) (ev : Event) (v : FloatingMenuView) :
  runs [(env, ev)] v (result (handle env ev v))
       (withoutConsole (calls (handle env ev v))).
Proof.
  unfold runs. rewrite handleAll_cons. unfold result at 1, calls at 1. simpl.
  split; [reflexivity |]. unfold calls at 2. simpl. now rewrite app_nil_r.
Qed.

(** Update cycles that find the controller visible change nothing and only
    write to the console. *)
Lemma updates_skipped (evs : list (Env * Event)) (v : FloatingMenuView) :
  visible v = true ->
  Forall (fun e => isUpdateEvent (snd e) = true) evs ->
  runs evs v v [].
Proof.
  intros Hv Hevs. induction Hevs as [| [env ev] rest Hu _ IH].
  - split; reflexivity.
  - simpl in Hu.
    assert (Hstep : handle env ev v = (tt, v, [ConsoleLog "update "])).
    { destruct ev as [| | | | | view oldState | | | [] |]; try discriminate;
        simpl; rewrite update_run, Hv, orb_true_r; reflexivity. }
    change ((env, ev) :: rest) with ([(env, ev)] ++ rest)%list.
    change (@nil Call) with (@nil Call ++ @nil Call)%list.
    apply (runs_app _ _ v v v); [| exact IH].
    pose proof (runs_one env ev v) as H1. rewrite Hstep in H1. exact H1.
Qed.

(** X9: the focus handoff of [onShow] survives the blur it causes. Run
    [onShow], its timeout, the blur of the editor if one arrives and the
    animation frame, with any number of update cycles in between: the
    controller ends visible with [preventHide] cleared, and the calls made,
    console messages aside, are exactly: schedule the timeout, blur the
    editor, request the frame, and focus the textarea when it exists; in
    particular no hide. *)
Theorem X9_focus_handoff (e1 e2 e4 : Env)
    (blur : option (Env * option FocusEvent))
    (us1 us2 us3 : list (Env * Event)) (v : FloatingMenuView) :
  Forall (fun e => isUpdateEvent (snd e) = true) us1 ->
  Forall (fun e => isUpdateEvent (snd e) = true) us2 ->
  Forall (fun e => isUpdateEvent (snd e) = true) us3 ->
  result (handleAll (handoffSeries e1 e2 e4 blur us1 us2 us3) v)
  = set_preventHide false (set_visible true v)
  /\ withoutConsole
       (calls (handleAll (handoffSeries e1 e2 e4 blur us1 us2 us3) v))
     = ([SetTimeout TaskHandoff; EditorCommandsBlur;
         RequestAnimationFrame TaskRestoreFocus]
        ++ if textarea e4 then [TextareaFocus] else [])%list
  /\ (TippyHide ∉
      calls (handleAll (handoffSeries e1 e2 e4 blur us1 us2 us3) v)).
Proof.
  intros H1 H2 H3.
  assert (Hmain :
    runs (handoffSeries e1 e2 e4 blur us1 us2 us3) v
         (set_preventHide false (set_visible true v))
         ([SetTimeout TaskHandoff; EditorCommandsBlur;
           RequestAnimationFrame TaskRestoreFocus]
          ++ if textarea e4 then [TextareaFocus] else [])%list).
  { unfold handoffSeries.
    (* the blur, if any, finds [preventHide] set *)
    assert (Hblur :
      runs match blur with
           | Some (e3, event) => [(e3, EvBlur event)]
           | None => []
           end
           (set_preventHide true (set_visible true v))
           (set_preventHide (match blur with Some _ => false | None => true end)
                            (set_visible true v))
           []).
    { destruct blur as [[e3 event] |]; [| split; destruct v; reflexivity].
      pose proof (runs_one e3 (EvBlur event)
                    (set_preventHide true (set_visible true v))) as Hb.
      simpl handle in Hb. rewrite blurHandler_consumes in Hb by reflexivity.
      destruct v. exact Hb. }
    apply (runs_app [(e1, EvOnShow)] _ v (set_visible true v) _
             [SetTimeout TaskHandoff]
             ([EditorCommandsBlur; RequestAnimationFrame TaskRestoreFocus]
              ++ if textarea e4 then [TextareaFocus] else [])).
    { apply (runs_one e1 EvOnShow v). }
    apply (runs_app us1 _ _ (set_visible true v) _ []
             ([EditorCommandsBlur; RequestAnimationFrame TaskRestoreFocus]
              ++ if textarea e4 then [TextareaFocus] else [])).
    { now apply updates_skipped. }
    apply (runs_app [(e2, EvTask TaskHandoff)] _ _
             (set_preventHide true (set_visible true v)) _
             [EditorCommandsBlur; RequestAnimationFrame TaskRestoreFocus]
             (if textarea e4 then [TextareaFocus] else [])).
    { apply (runs_one e2 (EvTask TaskHandoff) (set_visible true v)). }
    apply (runs_app us2 _ _ (set_preventHide true (set_visible true v)) _ []
             (if textarea e4 then [TextareaFocus] else [])).
    { now apply updates_skipped. }
    apply (runs_app _ _ _
             (set_preventHide
                (match blur with Some _ => false | None => true end)
                (set_visible true v)) _ []
             (if textarea e4 then [TextareaFocus] else [])).
    { exact Hblur. }
    apply (runs_app us3 _ _
             (set_preventHide
                (match blur with Some _ => false | None => true end)
                (set_visible true v)) _ []
             (if textarea e4 then [TextareaFocus] else [])).
    { now apply updates_skipped. }
    pose proof (runs_one e4 (EvTask TaskRestoreFocus)
                  (set_preventHide
                     (match blur with Some _ => false | None => true end)
                     (set_visible true v))) as Hr.
    destruct v as [ph fh ti vis topt ss ls].
    unfold runs in *. simpl in *. unfold result, calls in *.
    destruct (textarea e4); simpl in *; exact Hr. }
  destruct Hmain as [Hr Hc]. split; [exact Hr |]. split; [exact Hc |].
  intros Hin.
  assert (Hf : TippyHide ∈ withoutConsole
                 (calls (handleAll (handoffSeries e1 e2 e4 blur us1 us2 us3)
                           v))).
  { unfold withoutConsole. apply list_elem_of_In, List.filter_In.
    split; [now apply list_elem_of_In | reflexivity]. }
  rewrite Hc in Hf. apply elem_of_app in Hf as [Hf | Hf].
  - rewrite !elem_of_cons, elem_of_nil in Hf.
    destruct Hf as [Hf | [Hf | [Hf | []]]]; discriminate Hf.
  - destruct (textarea e4);
      [apply list_elem_of_singleton in Hf | apply elem_of_nil in Hf];
      [discriminate Hf | exact Hf].
Qed.

Lemma X9_focus_handoff_witness :
  result (handleAll
            (handoffSeries (demoEnv openView) (demoEnv openView)
               (demoEnv openView) (Some (demoEnv openView, unrelatedBlur))
               [] [(demoEnv collapsedView, EvUpdate collapsedView None)] [])
            (result (update (demoEnv openView) openView None
                       pluginController)))
  = set_preventHide false shownController.
Proof.
  apply (X9_focus_handoff (demoEnv openView) (demoEnv openView)
           (demoEnv openView) (Some (demoEnv openView, unrelatedBlur))
           [] [(demoEnv collapsedView, EvUpdate collapsedView None)] []
           (result (update (demoEnv openView) openView None
                      pluginController))); repeat constructor.
Defined.

(** ** Who changes what *)

(** X10: the controller never decides by itself that the overlay is
    visible: [visible] becomes true only in the overlay's [onShow] callback,
    false only in [onHidden] and in [destroy], and every other handler,
    the update cycle included, leaves it as it is. *)
Theorem X10_visible_changes (env : Env) (ev : Event) (v : FloatingMenuView) :
  visible (result (handle env ev v))
  = match ev with
    | EvOnShow => true
    | EvOnHidden | EvDestroy => false
    | _ => visible v
    end.
Proof.
  assert (Hblur : forall event,
             visible (result (blurHandler env event v)) = visible v).
  { intros event.
    destruct (blurHandler_cases env event v) as [-> | [-> | [_ ->]]];
      try rewrite hide_run; reflexivity. }
  destruct ev as [| key | | event | event | view oldState | | | t |]; simpl;
    try reflexivity; try apply Hblur.
  - rewrite keydownHandler_run. now destruct (String.eqb key "Escape").
  - apply update_frame.
  - destruct t; simpl; [apply update_frame | reflexivity |].
    run_M. now destruct (textarea env).
  - now rewrite destroy_run.
Qed.

(** X11: only the update cycle creates, shows or re-anchors the overlay.
    A handler that is not an update cycle and does not hand control to the
    editor (mousedown, any key but Escape, focus, the two blurs, the
    overlay's callbacks, destroy) makes at most these calls to the overlay:
    hide (blur) and destroy, and only on an instance that exists; it never
    calls the factory, show or setProps, and it leaves the instance it finds
    in place (no instance stays no instance). *)
Theorem X11_only_update_creates_or_shows (env : Env) (ev : Event)
    (v : FloatingMenuView) (c : Call) :
  isUpdateEvent ev = false ->
  entersEditor ev = false ->
  (c ∈ calls (handle env ev v) -> isOverlayCall c = true ->
   (c = TippyHide \/ c = TippyDestroy) /\ is_Some (tippy v))
  /\ (tippy v = None -> tippy (result (handle env ev v)) = None).
Proof.
  intros Hu _.
  destruct (Event_destroy_dec ev) as [-> | Hd].
  - simpl. rewrite destroy_run. unfold result, calls. simpl.
    destruct (tippy v) as [i |].
    + split; [| discriminate].
      intros ->%list_elem_of_singleton _. eauto.
    + split; [| reflexivity]. now intros Hc%elem_of_nil.
  - split.
    + intros Hc Ho.
      destruct (handle_other_calls env ev v c Hu Hd Hc Ho) as [-> Hs]. auto.
    + intros Hn.
      destruct (handle_other_frame env ev v Hu Hd) as (-> & _). exact Hn.
Qed.

Lemma X11_only_update_creates_or_shows_witness :
  tippy (result (handle (demoEnv openView) (EvBlur unrelatedBlur)
                   pluginController)) = None
  /\ is_Some (tippy shownController).
Proof.
  split.
  - apply (X11_only_update_creates_or_shows (demoEnv openView)
             (EvBlur unrelatedBlur) pluginController TippyHide); reflexivity.
  - apply (X11_only_update_creates_or_shows (demoEnv openView)
             (EvBlur unrelatedBlur) shownController TippyHide);
      try reflexivity.
    apply (bool_decide_unpack _). vm_compute. exact I.
Defined.

(** ** The reducer over transactions *)

Lemma apply_value (tr : Transaction) (value : PluginState)
    (oldState newState : EditorState) :
  apply tr value oldState newState
  = {| showFloatingMenu :=
         if isUndefined (getMeta tr floatingMenuKey) then JSBool false
         else getMeta tr floatingMenuKey |}.
Proof.
  destruct (isUndefined (getMeta tr floatingMenuKey)) eqn:E.
  - now apply apply_untagged.
  - now apply apply_tagged.
Qed.

(** X12: after any series of metadata-only transactions the flag is
    decided by the last one alone (its tag, or false when it has none),
    whatever came before; document and selection are as they were. *)
Theorem X12_last_transaction_wins (st : EditorState)
    (trs : list Transaction) (tr : Transaction) :
  floatingMenuState (applyTransactions st (trs ++ [tr]))
  = {| showFloatingMenu :=
         if isUndefined (getMeta tr floatingMenuKey) then JSBool false
         else getMeta tr floatingMenuKey |}
  /\ doc (applyTransactions st (trs ++ [tr])) = doc st
  /\ selection (applyTransactions st (trs ++ [tr])) = selection st.
Proof.
  unfold applyTransactions. rewrite fold_left_app. simpl.
  split; [apply apply_value |].
  generalize st. induction trs as [| t r IH]; intros s; simpl.
  - split; reflexivity.
  - destruct (IH (applyTransaction s t)) as [Hd Hs]. now rewrite Hd, Hs.
Qed.

(** X13: what the reducer makes of the metadata: a tag under any other key
    changes nothing; a tag of [undefined] under the plugin key counts as no
    tag (the flag becomes false) whereas [null] is stored as it is; reading
    back a tag gives the value written, and a later tag under the plugin key
    replaces an earlier one. *)
Theorem X13_metadata_edges (tr : Transaction) (value : PluginState)
    (oldState newState : EditorState) (key : string) (v v' : JSValue) :
  (key <> floatingMenuKey ->
   apply (setMeta tr key v) value oldState newState
   = apply tr value oldState newState)
  /\ apply (setMeta tr floatingMenuKey JSUndefined) value oldState newState
     = {| showFloatingMenu := JSBool false |}
  /\ apply (setMeta tr floatingMenuKey JSNull) value oldState newState
     = {| showFloatingMenu := JSNull |}
  /\ getMeta (setMeta tr key v) key = v
  /\ apply (setMeta (setMeta tr floatingMenuKey v) floatingMenuKey v')
           value oldState newState
     = apply (setMeta tr floatingMenuKey v') value oldState newState.
Proof.
  split; [| split; [| split; [| split]]].
  - intros Hk. rewrite !apply_value. unfold getMeta, setMeta. simpl.
    now rewrite lookup_insert_ne.
  - rewrite apply_value, getMeta_setMeta. reflexivity.
  - rewrite apply_value, getMeta_setMeta. reflexivity.
  - apply getMeta_setMeta.
  - now rewrite !apply_value, !getMeta_setMeta.
Qed.

Lemma X13_metadata_edges_witness :
  apply (setMeta (setMeta emptyTransaction floatingMenuKey (JSBool true))
                 "preventDispatch" (JSBool true))
        init (state paragraphView) (state paragraphView)
  = {| showFloatingMenu := JSBool true |}.
Proof.
  destruct (X13_metadata_edges
              (setMeta emptyTransaction floatingMenuKey (JSBool true)) init
              (state paragraphView) (state paragraphView)
              "preventDispatch" (JSBool true) JSNull) as [Hother _].
  rewrite Hother; [reflexivity | discriminate].
Defined.

(** X14: the transaction [setFloatMenu(b)] dispatches sets the flag to
    exactly [b] when reduced, whatever the transaction carried before and
    whatever the flag was, and it keeps the metadata under every other key;
    without a dispatch function the command dispatches nothing and still
    reports success. *)
Theorem X14_setFloatMenu_reduces (props : CommandProps) (b : bool)
    (value : PluginState) (oldState newState : EditorState) :
  (c_dispatch props = true ->
   exists tr,
     setFloatMenu b props = (true, [Dispatch tr])
     /\ apply tr value oldState newState = {| showFloatingMenu := JSBool b |}
     /\ forall key, key <> floatingMenuKey ->
                    getMeta tr key = getMeta (c_tr props) key)
  /\ (c_dispatch props = false -> setFloatMenu b props = (true, [])).
Proof.
  unfold setFloatMenu. split; intros ->; [| reflexivity].
  eexists. split; [reflexivity |]. split.
  - rewrite apply_value, getMeta_setMeta. reflexivity.
  - intros key Hk. unfold getMeta, setMeta. simpl.
    rewrite lookup_insert_ne; [reflexivity | congruence].
Qed.

Lemma X14_setFloatMenu_reduces_witness :
  exists tr,
    setFloatMenu false (commandPropsOf openView) = (true, [Dispatch tr])
    /\ apply tr {| showFloatingMenu := JSBool true |} (state openView)
             (state openView)
       = {| showFloatingMenu := JSBool false |}.
Proof.
  destruct (X14_setFloatMenu_reduces (commandPropsOf openView) false
              {| showFloatingMenu := JSBool true |} (state openView)
              (state openView)) as [H _].
  destruct (H eq_refl) as (tr & Hd & Ha & _).
  exists tr. split; assumption.
Defined.

(** ** The serialization test never decides *)

Lemma length_zero_empty (s : string) : String.length s = 0 -> s = "".
Proof. destruct s; [reflexivity | discriminate]. Qed.

Lemma getTextNodes_size_zero (sers : gmap string string) (p : nat)
    (l : list Node) :
  fragmentSize l = 0 -> getTextNodes sers p l = "".
Proof.
  revert p. induction l as [| x r IH]; intros p H; [reflexivity |].
  simpl in H. apply Nat.eq_add_0 in H as [Hx Hr].
  destruct x as [s | t c].
  - simpl in Hx. apply length_zero_empty in Hx. subst s.
    simpl. apply IH. exact Hr.
  - rewrite fragmentSize_unfold in Hx. destruct (isLeaf t); discriminate.
Qed.

(** X15: neither caret predicate depends on the editor's schema: where the
    content has size zero (or there are no children) the serialization is
    empty whatever the serializers are, so [isEmptyParagraph] is decided by
    the type name and the content size alone, and the default predicate's
    test by textblock, code flag, text content and child count alone. *)
Theorem X15_serialization_never_decides (p : ResolvedPos) (ed ed' : Editor) :
  isEmptyParagraph p ed
  = String.eqb (name (typeOf (parent p))) "paragraph"
    && Nat.eqb (contentSize (parent p)) 0
  /\ isEmptyTextBlock ed p
     = isTextblock (typeOf (parent p))
       && negb (truthyOpt (code (spec (typeOf (parent p)))))
       && negb (nonEmptyString (textContent (parent p)))
       && Nat.eqb (childCount (parent p)) 0
  /\ isEmptyParagraph p ed = isEmptyParagraph p ed'
  /\ isEmptyTextBlock ed p = isEmptyTextBlock ed' p.
Proof.
  assert (Hp : forall e,
             isEmptyParagraph p e
             = String.eqb (name (typeOf (parent p))) "paragraph"
               && Nat.eqb (contentSize (parent p)) 0).
  { intros e. unfold isEmptyParagraph.
    destruct (String.eqb _ _); [| reflexivity]. simpl.
    destruct (Nat.eqb_spec (contentSize (parent p)) 0) as [Hz | Hz];
      [| reflexivity].
    unfold getText. rewrite getTextNodes_size_zero by exact Hz. reflexivity. }
  assert (Hb : forall e,
             isEmptyTextBlock e p
             = isTextblock (typeOf (parent p))
               && negb (truthyOpt (code (spec (typeOf (parent p)))))
               && negb (nonEmptyString (textContent (parent p)))
               && Nat.eqb (childCount (parent p)) 0).
  { intros e. unfold isEmptyTextBlock, getTextContent.
    destruct (Nat.eqb_spec (childCount (parent p)) 0) as [Hz | Hz].
    - rewrite (getText_no_children _ _ Hz). simpl. now rewrite andb_true_r.
    - simpl. now rewrite !andb_false_r. }
  split; [apply Hp |]. split; [apply Hb |].
  split; [now rewrite !Hp | now rewrite !Hb].
Qed.

(** ** The controller used directly, and the whole path of the open key *)

Lemma defaultShouldShow_true (ed : Editor) (props : ShowProps) :
  defaultShouldShow ed props = true <-> defaultConjuncts ed props.
Proof.
  unfold defaultShouldShow, defaultConjuncts.
  rewrite <- isEmptyTextBlock_spec.
  destruct (hasFocus _), (Selection.empty _), (isEmptyTextBlock ed _),
    (isEditable ed),
    (Nat.eqb_spec (depth (Selection.r_anchor (selection (p_state props)))) 1);
    simpl; intuition (try discriminate; try lia; auto).
Qed.

(** X16: on a controller constructed directly, an update cycle calls show
    iff it is not skipped, an instance exists or can be created, and the
    installed predicate holds: the override when one was passed to the
    constructor (the default's checks are then not consulted), otherwise the
    default predicate, i.e. focus, collapsed selection, depth 1, empty
    eligible textblock and editable editor. *)
Theorem X16_direct_controller (tippyOpts : option nat)
    (shouldShowOpt : option (ShowProps -> bool)) (env : Env)
    (view : EditorView) (oldState : option EditorState)
    (v : FloatingMenuView) :
  reachable (fst (new_FloatingMenuView tippyOpts shouldShowOpt)) v ->
  ((TippyShow ∈ calls (update env view oldState v)) <->
   composing view = false /\ visible v = false
   /\ (is_Some (tippy v) \/ editorIsAttached (editor env) = true)
   /\ match shouldShowOpt with
      | Some f => f (updateProps env view oldState) = true
      | None => defaultConjuncts (editor env) (updateProps env view oldState)
      end).
Proof.
  intros Hr. rewrite update_shows_iff, (reachable_shouldShow _ _ Hr).
  destruct shouldShowOpt as [f |]; simpl; [reflexivity |].
  now rewrite defaultShouldShow_true.
Qed.

Lemma X16_direct_controller_witness :
  TippyShow ∈ calls (update (demoEnv paragraphView) paragraphView None
                       (fst (new_FloatingMenuView None None))).
Proof.
  apply (X16_direct_controller None None (demoEnv paragraphView)
           paragraphView None (fst (new_FloatingMenuView None None))).
  - apply reachable_start.
  - repeat split. right. reflexivity.
Defined.



(** X18: the gate passes only on a state whose last transaction was tagged
    with a truthy value. After any other transaction (no tag, or a falsy
    one) the plugin's predicate is false whatever the selection is, and an
    update cycle of a controller built by the plugin that is not skipped and
    has an instance calls hide. *)
Theorem X18_untagged_closes (options : FloatingMenuPluginProps) (env : Env)
    (view : EditorView) (st : EditorState) (tr : Transaction)
    (v : FloatingMenuView) (i : Instance) :
  truthy (getMeta tr floatingMenuKey) = false ->
  reachable (fst (FloatingMenuPlugin_view options)) v ->
  composing view = false -> visible v = false -> tippy v = Some i ->
  pluginShouldShow options (updateState view (applyTransaction st tr)) = false
  /\ update env (updateState view (applyTransaction st tr)) (Some st) v
     = (tt, v, [TippyHide]).
Proof.
  intros Hfalsy Hr Hcomp Hvis Hi.
  assert (Hgate : pluginShouldShow options
                    (updateState view (applyTransaction st tr)) = false).
  { rewrite pluginShouldShow_eq. simpl. rewrite apply_value.
    destruct (isUndefined (getMeta tr floatingMenuKey)); simpl;
      rewrite ?Hfalsy; now rewrite andb_false_r. }
  split; [exact Hgate |].
  rewrite update_run. simpl composing. rewrite Hcomp, Hvis.
  rewrite (reachable_shouldShow _ _ Hr). simpl.
  rewrite Hgate, (createTooltip_keeps env v i Hi).
  unfold result, calls. simpl. now rewrite Hi.
Qed.

Lemma X18_untagged_closes_witness :
  update (demoEnv openView)
    (updateState openView (applyTransaction (state openView) emptyTransaction))
    (Some (state openView)) (set_visible false shownController)
  = (tt, set_visible false shownController, [TippyHide]).
Proof.
  eapply (X18_untagged_closes (demoOptions openView) (demoEnv openView)
            openView (state openView) emptyTransaction
            (set_visible false shownController)).
  - reflexivity.
  - apply (reachable_step _ _ (demoEnv openView) EvOnHidden).
    apply (reachable_step _ _ (demoEnv openView) EvOnShow).
    apply (reachable_step _ _ (demoEnv openView) (EvUpdate openView None)).
    apply reachable_start.
  - reflexivity.
  - reflexivity.
  - reflexivity.
Defined.

(** X19: while the controller is marked visible, update cycles do nothing,
    however many arrive and whatever their views say: the state stays as it
    is and every call made is the console message, so an overlay that is
    shown is never hidden, shown again or re-anchored by an update. *)
Theorem X19_updates_skipped_while_visible (evs : list (Env * Event))
    (v : FloatingMenuView) :
  visible v = true ->
  Forall (fun e => isUpdateEvent (snd e) = true) evs ->
  result (handleAll evs v) = v
  /\ forall c, c ∈ calls (handleAll evs v) -> c = ConsoleLog "update ".
Proof.
  intros Hv Hevs. induction Hevs as [| [env ev] rest Hu _ IH].
  - split; [reflexivity |]. intros c Hc. now apply elem_of_nil in Hc.
  - simpl in Hu. rewrite handleAll_cons. unfold result at 1, calls at 1.
    simpl.
    assert (Hstep : handle env ev v = (tt, v, [ConsoleLog "update "])).
    { destruct ev as [| | | | | view oldState | | | [] |]; try discriminate;
        simpl; rewrite update_run, Hv, orb_true_r; reflexivity. }
    rewrite Hstep. unfold result at 1 2, calls at 1. simpl.
    destruct IH as [IHr IHc]. split; [exact IHr |].
    intros c Hc. apply elem_of_cons in Hc as [-> | Hc]; auto.
Qed.

Lemma X19_updates_skipped_while_visible_witness :
  result (handleAll [(demoEnv collapsedView, EvUpdate collapsedView None);
                     (demoEnv headingView, EvTask TaskUpdate)]
            shownController) = shownController.
Proof.
  apply (X19_updates_skipped_while_visible
           [(demoEnv collapsedView, EvUpdate collapsedView None);
            (demoEnv headingView, EvTask TaskUpdate)] shownController).
  - reflexivity.
  - repeat constructor.
Defined.
